(** * RX65N virtual microcontroller: a shallow embedding of rx_emulator

    The development follows the Python package module by module:
    [Memory] (memory.py), [Interrupt] (interrupt.py), [Timer] (timer.py),
    [Cpu] (cpu.py) and [Emulator] (emulator.py).  Python integers are
    unbounded, so registers and addresses are [Z] and every mask the
    source applies ([& 0xFFFFFFFF], [& 0xFF], ...) is written out with
    [Z.land].  Objects that the source mutates in place are threaded
    through the functions as explicit state.

    The definitions come first: the embedding of the five modules, the
    vocabulary of the properties and a few concrete machines.  The
    properties follow, one module of facts for each module of the
    source, and [Runs], where the concrete machines are evaluated. *)

From Stdlib Require Import ZArith Lia Bool.
From stdpp Require Import base option list gmap strings pretty.
From coqutil Require Import Z.bitblast.

Local Open Scope Z_scope.

(** ** Python dictionaries whose iteration order matters

    A [dict] keeps its keys in insertion order and the source iterates
    over some of its dictionaries, so these are association lists with
    unique keys: a new key is appended at the end, an existing key keeps
    its position. *)

Definition Dict (V : Type) : Type := list (Z * V).

Section Dict.

Context {V : Type}.

(** [d.get(k)] / [k in d] *)
Fixpoint dict_get (k : Z) (d : Dict V) : option V :=
  match d with
  | [] => None
  | (k', s) :: r => if Z.eqb k k' then Some s else dict_get k r
  end.

(** [d[k] = s] *)
Fixpoint dict_set (k : Z) (s : V) (d : Dict V) : Dict V :=
  match d with
  | [] => [(k, s)]
  | (k', s') :: r => if Z.eqb k k' then (k', s) :: r
                     else (k', s') :: dict_set k s r
  end.

(** [d[k].field = ...], the object stored under [k] mutated in place;
    nothing is done for a missing key (the callers test membership
    first or only use keys that exist). *)
Fixpoint dict_update (k : Z) (f : V → V) (d : Dict V) : Dict V :=
  match d with
  | [] => []
  | (k', s') :: r => if Z.eqb k k' then (k', f s') :: r
                     else (k', s') :: dict_update k f r
  end.

End Dict.

(** ** memory.py *)

Module Memory.

Inductive MemoryRegion := RAM | FLASH | PERIPHERAL | RESERVED.

#[global] Instance MemoryRegion_eq_dec : EqDecision MemoryRegion.
Proof. solve_decision. Defined.

(** A [bytearray(size)] is zero-filled and never changes its length, so its
    contents are kept as the finite map of the cells written so far; a
    cell that is not in the map still holds its initial 0.  Every block of
    the repository is built without an explicit buffer, so [__post_init__]
    allocates exactly [size] cells and an offset computed from an address
    that the block contains is always in range. *)
Record MemoryBlock := {
  name : string;
  start : Z;
  size : Z;
  region_type : MemoryRegion;
  data : gmap Z Z;
  readonly : bool
}.

Definition bytearray (n : Z) : gmap Z Z := ∅.

Definition new_block (nm : string) (st sz : Z) (rt : MemoryRegion)
    (ro : bool) : MemoryBlock :=
  {| name := nm; start := st; size := sz; region_type := rt;
     data := bytearray sz; readonly := ro |}.

Definition set_data (d : gmap Z Z) (b : MemoryBlock) : MemoryBlock :=
  {| name := name b; start := start b; size := size b;
     region_type := region_type b; data := d; readonly := readonly b |}.

Definition block_end (b : MemoryBlock) : Z := start b + size b - 1.

Definition contains (b : MemoryBlock) (address : Z) : bool :=
  (start b <=? address) && (address <=? block_end b).

(** One entry of [access_log]: the dictionary keys 'type', 'address',
    'value' and 'error', the last two being optional. *)
Record AccessRecord := {
  ar_type : string;
  ar_address : Z;
  ar_value : option Z;
  ar_error : option string
}.

Section Controller.

(** [P] is the state of the components captured by the peripheral
    callbacks (interrupt controller, timer, GPIO, ...).  A read callback
    may change that state (the UART receive register pops its buffer). *)
Context {P : Type}.

Record PeripheralHandler := {
  read_handler : option (Z → P → Z * P);
  write_handler : option (Z → Z → P → P)
}.

Record MemoryController := {
  blocks : list MemoryBlock;
  peripheral_handlers : gmap Z PeripheralHandler;
  access_log : list AccessRecord;
  log_enabled : bool
}.

(** The memory controller together with the components its callbacks
    act on. *)
Record Bus := {
  mem : MemoryController;
  dev : P
}.

Definition set_blocks (bs : list MemoryBlock) (m : MemoryController) :=
  {| blocks := bs; peripheral_handlers := peripheral_handlers m;
     access_log := access_log m; log_enabled := log_enabled m |}.

Definition set_handlers (h : gmap Z PeripheralHandler) (m : MemoryController) :=
  {| blocks := blocks m; peripheral_handlers := h;
     access_log := access_log m; log_enabled := log_enabled m |}.

Definition log_access (r : AccessRecord) (m : MemoryController) :=
  if log_enabled m
  then {| blocks := blocks m; peripheral_handlers := peripheral_handlers m;
          access_log := access_log m ++ [r]; log_enabled := log_enabled m |}
  else m.

Definition set_mem (m : MemoryController) (b : Bus) : Bus :=
  {| mem := m; dev := dev b |}.

Definition set_dev (d : P) (b : Bus) : Bus :=
  {| mem := mem b; dev := d |}.

(** [blocks.sort(key=lambda b: b.start)] is a stable sort: insertion sort
    that keeps an element in front of later elements with the same key. *)
Fixpoint insert_sorted (b : MemoryBlock) (l : list MemoryBlock) : list MemoryBlock :=
  match l with
  | [] => [b]
  | x :: r => if start b <=? start x then b :: x :: r
              else x :: insert_sorted b r
  end.

Definition sort_by_start (l : list MemoryBlock) : list MemoryBlock :=
  foldr insert_sorted [] l.

Definition add_block (block : MemoryBlock) (m : MemoryController) :=
  set_blocks (sort_by_start (blocks m ++ [block])) m.

Definition _setup_default_memory_map (m : MemoryController) : MemoryController :=
  let m := add_block (new_block "RAM" 0x00000000 0x00040000 RAM false) m in
  let m := add_block (new_block "Peripheral" 0x00080000 0x00080000 PERIPHERAL false) m in
  let m := add_block (new_block "Flash" 0xFFE00000 0x00200000 FLASH false) m in
  add_block (new_block "FixedVector" 0xFFFFFF80 0x80 FLASH false) m.

(** [MemoryController.__init__] *)
Definition init : MemoryController :=
  _setup_default_memory_map
    {| blocks := []; peripheral_handlers := ∅; access_log := [];
       log_enabled := false |}.

(** The source returns the block object and later mutates it in place;
    the index of the block in [blocks] stands for that reference. *)
Definition _find_block (address : Z) (bs : list MemoryBlock)
    : option (nat * MemoryBlock) :=
  list_find (λ b, Is_true (contains b address)) bs.

Definition _check_peripheral (address : Z) (is_write : bool) (value : Z)
    (b : Bus) : (bool * Z) * Bus :=
  match peripheral_handlers (mem b) !! address with
  | Some h =>
      if is_write then
        match write_handler h with
        | Some wh => ((true, value), set_dev (wh address value (dev b)) b)
        | None => ((false, 0), b)
        end
      else
        match read_handler h with
        | Some rh => let '(v, d) := rh address (dev b) in
                     ((true, v), set_dev d b)
        | None => ((false, 0), b)
        end
  | None => ((false, 0), b)
  end.

Definition register_peripheral (address : Z)
    (rh : option (Z → P → Z * P)) (wh : option (Z → Z → P → P))
    (m : MemoryController) : MemoryController :=
  set_handlers
    (<[address := {| read_handler := rh; write_handler := wh |}]>
       (peripheral_handlers m)) m.

Definition read8 (address : Z) (b : Bus) : Z * Bus :=
  let address := Z.land address 0xFFFFFFFF in
  let '((handled, value), b) := _check_peripheral address false 0 b in
  if handled then (Z.land value 0xFF, b)
  else
    match _find_block address (blocks (mem b)) with
    | None =>
        (0xFF,
         set_mem (log_access {| ar_type := "read8"; ar_address := address;
                                ar_value := None;
                                ar_error := Some "unmapped" |} (mem b)) b)
    | Some (_, block) =>
        let offset := address - start block in
        let value := default 0 (data block !! offset) in
        (value,
         set_mem (log_access {| ar_type := "read8"; ar_address := address;
                                ar_value := Some value;
                                ar_error := None |} (mem b)) b)
    end.

Definition read16 (address : Z) (b : Bus) : Z * Bus :=
  let '(low, b) := read8 address b in
  let '(high, b) := read8 (address + 1) b in
  (Z.lor (Z.shiftl high 8) low, b).

Definition read32 (address : Z) (b : Bus) : Z * Bus :=
  let '(b0, b) := read8 address b in
  let '(b1, b) := read8 (address + 1) b in
  let '(b2, b) := read8 (address + 2) b in
  let '(b3, b) := read8 (address + 3) b in
  (Z.lor (Z.lor (Z.lor (Z.shiftl b3 24) (Z.shiftl b2 16)) (Z.shiftl b1 8)) b0,
   b).

(** No write callback is ever registered in the repository
    ([write_callbacks] stays empty), so the notification loop at the end
    of [write8] has nothing to call. *)
Definition write8 (address value : Z) (b : Bus) : Bus :=
  let address := Z.land address 0xFFFFFFFF in
  let value := Z.land value 0xFF in
  let '((handled, _), b) := _check_peripheral address true value b in
  if handled then b
  else
    match _find_block address (blocks (mem b)) with
    | None =>
        set_mem (log_access {| ar_type := "write8"; ar_address := address;
                               ar_value := Some value;
                               ar_error := Some "unmapped" |} (mem b)) b
    | Some (i, block) =>
        if readonly block then
          set_mem (log_access {| ar_type := "write8"; ar_address := address;
                                 ar_value := Some value;
                                 ar_error := Some "readonly" |} (mem b)) b
        else
          let offset := address - start block in
          let block := set_data (<[offset := value]> (data block)) block in
          let m := set_blocks (<[i := block]> (blocks (mem b))) (mem b) in
          set_mem (log_access {| ar_type := "write8"; ar_address := address;
                                 ar_value := Some value;
                                 ar_error := None |} m) b
    end.

Definition write16 (address value : Z) (b : Bus) : Bus :=
  let b := write8 address (Z.land value 0xFF) b in
  write8 (address + 1) (Z.land (Z.shiftr value 8) 0xFF) b.

Definition write32 (address value : Z) (b : Bus) : Bus :=
  let b := write8 address (Z.land value 0xFF) b in
  let b := write8 (address + 1) (Z.land (Z.shiftr value 8) 0xFF) b in
  let b := write8 (address + 2) (Z.land (Z.shiftr value 16) 0xFF) b in
  write8 (address + 3) (Z.land (Z.shiftr value 24) 0xFF) b.

(** [for i, byte in enumerate(data): self.write8(address + i, byte)] *)
Fixpoint load_binary (address : Z) (bytes : list Z) (b : Bus) : Bus :=
  match bytes with
  | [] => b
  | byte :: rest => load_binary (address + 1) rest (write8 address byte b)
  end.

Definition reset_block (b : MemoryBlock) : MemoryBlock :=
  if decide (region_type b = RAM) then set_data (bytearray (size b)) b else b.

Definition reset (m : MemoryController) : MemoryController :=
  set_blocks (reset_block <$> blocks m) m.

End Controller.

Arguments PeripheralHandler : clear implicits.
Arguments MemoryController : clear implicits.
Arguments Bus : clear implicits.

End Memory.

(** ** interrupt.py *)

Module Interrupt.

Inductive InterruptType :=
  | RESET | UNDEFINED_INSTRUCTION | FLOATING_POINT | SOFTWARE_INTERRUPT
  | NMI | PERIPHERAL.

Record InterruptSource := {
  vector : Z;
  name : string;
  priority : Z;
  enabled : bool;
  pending : bool;
  interrupt_type : InterruptType
}.

(** [InterruptSource(vector=..., name=..., interrupt_type=...)] with the
    dataclass defaults for the other fields. *)
Definition new_source (v : Z) (nm : string) (ty : InterruptType) :=
  {| vector := v; name := nm; priority := 0; enabled := false;
     pending := false; interrupt_type := ty |}.

Definition set_priority_field (p : Z) (s : InterruptSource) :=
  {| vector := vector s; name := name s; priority := p;
     enabled := enabled s; pending := pending s;
     interrupt_type := interrupt_type s |}.

Definition set_enabled (e : bool) (s : InterruptSource) :=
  {| vector := vector s; name := name s; priority := priority s;
     enabled := e; pending := pending s;
     interrupt_type := interrupt_type s |}.

Definition set_pending (p : bool) (s : InterruptSource) :=
  {| vector := vector s; name := name s; priority := priority s;
     enabled := enabled s; pending := p;
     interrupt_type := interrupt_type s |}.

(** One entry of [interrupt_log]: keys 'event', 'vector' and, depending
    on the event, 'name', 'priority' and 'nest_level'. *)
Record LogEntry := {
  le_event : string;
  le_vector : Z;
  le_name : option string;
  le_priority : option Z;
  le_nest_level : option Z
}.

(** [sources] is a Python dict iterated by [get_pending_interrupt], so the
    insertion order is part of its meaning. *)
Definition SourceTable := Dict InterruptSource.

Record InterruptController := {
  sources : SourceTable;
  pending_queue : list Z;
  nest_stack : list Z;
  interrupt_log : list LogEntry;
  log_enabled : bool
}.

Definition set_sources (d : SourceTable) (ic : InterruptController) :=
  {| sources := d; pending_queue := pending_queue ic;
     nest_stack := nest_stack ic; interrupt_log := interrupt_log ic;
     log_enabled := log_enabled ic |}.

Definition set_pending_queue (q : list Z) (ic : InterruptController) :=
  {| sources := sources ic; pending_queue := q;
     nest_stack := nest_stack ic; interrupt_log := interrupt_log ic;
     log_enabled := log_enabled ic |}.

Definition set_nest_stack (st : list Z) (ic : InterruptController) :=
  {| sources := sources ic; pending_queue := pending_queue ic;
     nest_stack := st; interrupt_log := interrupt_log ic;
     log_enabled := log_enabled ic |}.

Definition log_event (e : LogEntry) (ic : InterruptController) :=
  if log_enabled ic
  then {| sources := sources ic; pending_queue := pending_queue ic;
          nest_stack := nest_stack ic;
          interrupt_log := interrupt_log ic ++ [e];
          log_enabled := log_enabled ic |}
  else ic.

Definition FIXED_VECTOR_BASE : Z := 0xFFFFFF80.
Definition VARIABLE_VECTOR_BASE : Z := 0xFFFFFF80.
Definition ICU_BASE : Z := 0x00087000.
Definition IR_OFFSET : Z := 0x0000.
Definition IER_OFFSET : Z := 0x0200.
Definition IPR_OFFSET : Z := 0x0300.

(** [f"INT{vector}"] and [f"IRQ{i}"] *)
Definition int_name (prefix : string) (v : Z) : string := prefix +:+ pretty v.

Definition fixed_vectors : list (Z * string * InterruptType) :=
  [ (0, "Reset", RESET);
    (1, "Undefined Instruction", UNDEFINED_INSTRUCTION);
    (2, "Floating Point Exception", FLOATING_POINT);
    (3, "Reserved", PERIPHERAL); (4, "Reserved", PERIPHERAL);
    (5, "Reserved", PERIPHERAL); (6, "Reserved", PERIPHERAL);
    (7, "Reserved", PERIPHERAL); (8, "Reserved", PERIPHERAL);
    (9, "Reserved", PERIPHERAL); (10, "Reserved", PERIPHERAL);
    (11, "Reserved", PERIPHERAL); (12, "Reserved", PERIPHERAL);
    (13, "Reserved", PERIPHERAL); (14, "Reserved", PERIPHERAL);
    (15, "Reserved", PERIPHERAL) ].

Definition cmt_vectors : list (Z * string) :=
  [ (28, "CMT0_CMI0"); (29, "CMT1_CMI1"); (30, "CMT2_CMI2");
    (31, "CMT3_CMI3") ].

Definition _setup_default_sources (d : SourceTable) : SourceTable :=
  let d := foldl (λ d '(v, nm, ty), dict_set v (new_source v nm ty) d)
                 d fixed_vectors in
  let d := foldl (λ d '(v, nm), dict_set v (new_source v nm PERIPHERAL) d)
                 d cmt_vectors in
  let d := foldl (λ d i, dict_set (64 + i)
                           (new_source (64 + i) (int_name "IRQ" i) PERIPHERAL) d)
                 d (seqZ 0 16) in
  dict_set 27 (new_source 27 "SWINT" SOFTWARE_INTERRUPT) d.

(** [InterruptController.__init__] *)
Definition init : InterruptController :=
  {| sources := _setup_default_sources []; pending_queue := [];
     nest_stack := []; interrupt_log := []; log_enabled := true |}.

(** [if vector not in self.sources: self.sources[vector] = InterruptSource(...)] *)
Definition materialize (v : Z) (d : SourceTable) : SourceTable :=
  match dict_get v d with
  | Some _ => d
  | None => dict_set v (new_source v (int_name "INT" v) PERIPHERAL) d
  end.

Definition _read_ir (v : Z) (ic : InterruptController) : Z :=
  match dict_get v (sources ic) with
  | Some s => if pending s then 1 else 0
  | None => 0
  end.

Definition _write_ir (v value : Z) (ic : InterruptController) :=
  match dict_get v (sources ic) with
  | Some _ =>
      if value =? 0
      then set_sources (dict_update v (set_pending false) (sources ic)) ic
      else ic
  | None => ic
  end.

Definition _read_ier (group : Z) (ic : InterruptController) : Z :=
  let base_vector := group * 8 in
  foldl (λ value i,
           match dict_get (base_vector + i) (sources ic) with
           | Some s => if enabled s then Z.lor value (Z.shiftl 1 i) else value
           | None => value
           end) 0 (seqZ 0 8).

Definition _write_ier (group value : Z) (ic : InterruptController) :=
  let base_vector := group * 8 in
  foldl (λ ic i,
           let v := base_vector + i in
           let d := materialize v (sources ic) in
           set_sources
             (dict_update v
                (set_enabled (negb (Z.land value (Z.shiftl 1 i) =? 0))) d) ic)
        ic (seqZ 0 8).

Definition _read_ipr (v : Z) (ic : InterruptController) : Z :=
  match dict_get v (sources ic) with
  | Some s => priority s
  | None => 0
  end.

Definition _write_ipr (v value : Z) (ic : InterruptController) :=
  let d := materialize v (sources ic) in
  set_sources (dict_update v (set_priority_field (Z.land value 0x0F)) d) ic.

(** No callback is ever registered with [register_callback] in the
    repository, so the loops over [interrupt_callbacks] call nothing. *)
Definition request (v : Z) (ic : InterruptController) : InterruptController :=
  let ic := set_sources (materialize v (sources ic)) ic in
  match dict_get v (sources ic) with
  | Some source =>
      if enabled source then
        let ic := set_sources (dict_update v (set_pending true) (sources ic)) ic in
        let ic := set_pending_queue (pending_queue ic ++ [v]) ic in
        log_event {| le_event := "request"; le_vector := v;
                     le_name := Some (name source);
                     le_priority := Some (priority source);
                     le_nest_level := None |} ic
      else ic
  | None => ic
  end.

(** The loop body of [get_pending_interrupt] on the pair
    [(highest_priority, highest_vector)]. *)
Definition pending_step (acc : Z * option Z) (e : Z * InterruptSource)
    : Z * option Z :=
  let '(highest_priority, highest_vector) := acc in
  let '(v, source) := e in
  if pending source && enabled source then
    if priority source >? highest_priority
    then (priority source, Some v)
    else acc
  else acc.

Definition get_pending_interrupt (ic : InterruptController) : option Z :=
  snd (foldl pending_step (-1, None) (sources ic)).

Definition acknowledge (v : Z) (ic : InterruptController) : InterruptController :=
  match dict_get v (sources ic) with
  | Some source =>
      let ic := set_sources (dict_update v (set_pending false) (sources ic)) ic in
      let ic := set_nest_stack (nest_stack ic ++ [v]) ic in
      log_event {| le_event := "acknowledge"; le_vector := v;
                   le_name := Some (name source);
                   le_priority := None;
                   le_nest_level := Some (Z.of_nat (length (nest_stack ic))) |} ic
  | None => ic
  end.

Definition return_from_interrupt (ic : InterruptController)
    : option Z * InterruptController :=
  match reverse (nest_stack ic) with
  | v :: rest =>
      let ic := set_nest_stack (reverse rest) ic in
      (Some v,
       log_event {| le_event := "return"; le_vector := v; le_name := None;
                    le_priority := None;
                    le_nest_level := Some (Z.of_nat (length (nest_stack ic))) |} ic)
  | [] => (None, ic)
  end.

Definition set_priority (v p : Z) (ic : InterruptController) :=
  set_sources (dict_update v (set_priority_field (Z.land p 0x0F)) (sources ic)) ic.

Definition enable (v : Z) (ic : InterruptController) :=
  set_sources (dict_update v (set_enabled true) (sources ic)) ic.

Definition disable (v : Z) (ic : InterruptController) :=
  set_sources (dict_update v (set_enabled false) (sources ic)) ic.

Definition clear_pending (v : Z) (ic : InterruptController) :=
  set_sources (dict_update v (set_pending false) (sources ic)) ic.

Definition reset_source (s : InterruptSource) : InterruptSource :=
  set_priority_field 0 (set_pending false (set_enabled false s)).

Definition reset (ic : InterruptController) : InterruptController :=
  {| sources := (λ e, (fst e, reset_source (snd e))) <$> sources ic;
     pending_queue := []; nest_stack := []; interrupt_log := [];
     log_enabled := log_enabled ic |}.

Section Handlers.

(** The callbacks registered with the memory controller close over the
    interrupt controller; [get_ic] and [put_ic] locate it in the state
    [P] of the components behind the bus. *)
Context {P : Type} (get_ic : P → InterruptController)
  (put_ic : InterruptController → P → P).

Definition _register_peripheral_handlers (m : Memory.MemoryController P)
    : Memory.MemoryController P :=
  let m := foldl (λ m v,
             Memory.register_peripheral (ICU_BASE + IR_OFFSET + v)
               (Some (λ a p, (_read_ir v (get_ic p), p)))
               (Some (λ a val p, put_ic (_write_ir v val (get_ic p)) p)) m)
             m (seqZ 0 256) in
  let m := foldl (λ m g,
             Memory.register_peripheral (ICU_BASE + IER_OFFSET + g)
               (Some (λ a p, (_read_ier g (get_ic p), p)))
               (Some (λ a val p, put_ic (_write_ier g val (get_ic p)) p)) m)
             m (seqZ 0 32) in
  foldl (λ m v,
           Memory.register_peripheral (ICU_BASE + IPR_OFFSET + v)
             (Some (λ a p, (_read_ipr v (get_ic p), p)))
             (Some (λ a val p, put_ic (_write_ipr v val (get_ic p)) p)) m)
        m (seqZ 0 256).

End Handlers.

End Interrupt.

(** ** timer.py *)

Module Timer.

Inductive CMTClockDivider := DIV_8 | DIV_32 | DIV_128 | DIV_512.

Record CMTChannel := {
  number : Z;
  cmcr : Z;
  cmcnt : Z;
  cmcor : Z;
  running : bool;
  compare_match_flag : bool;
  interrupt_enabled : bool;
  interrupt_vector : Z
}.

(** [CMTChannel(number)] with the dataclass defaults. *)
Definition new_channel (n : Z) : CMTChannel :=
  {| number := n; cmcr := 0x0000; cmcnt := 0x0000; cmcor := 0xFFFF;
     running := false; compare_match_flag := false;
     interrupt_enabled := false; interrupt_vector := 0 |}.

Definition set_cmcr (v : Z) (c : CMTChannel) :=
  {| number := number c; cmcr := v; cmcnt := cmcnt c; cmcor := cmcor c;
     running := running c; compare_match_flag := compare_match_flag c;
     interrupt_enabled := interrupt_enabled c;
     interrupt_vector := interrupt_vector c |}.

Definition set_cmcnt (v : Z) (c : CMTChannel) :=
  {| number := number c; cmcr := cmcr c; cmcnt := v; cmcor := cmcor c;
     running := running c; compare_match_flag := compare_match_flag c;
     interrupt_enabled := interrupt_enabled c;
     interrupt_vector := interrupt_vector c |}.

Definition set_cmcor (v : Z) (c : CMTChannel) :=
  {| number := number c; cmcr := cmcr c; cmcnt := cmcnt c; cmcor := v;
     running := running c; compare_match_flag := compare_match_flag c;
     interrupt_enabled := interrupt_enabled c;
     interrupt_vector := interrupt_vector c |}.

Definition set_running (r : bool) (c : CMTChannel) :=
  {| number := number c; cmcr := cmcr c; cmcnt := cmcnt c; cmcor := cmcor c;
     running := r; compare_match_flag := compare_match_flag c;
     interrupt_enabled := interrupt_enabled c;
     interrupt_vector := interrupt_vector c |}.

Definition set_compare_match_flag (f : bool) (c : CMTChannel) :=
  {| number := number c; cmcr := cmcr c; cmcnt := cmcnt c; cmcor := cmcor c;
     running := running c; compare_match_flag := f;
     interrupt_enabled := interrupt_enabled c;
     interrupt_vector := interrupt_vector c |}.

Definition set_interrupt_enabled (e : bool) (c : CMTChannel) :=
  {| number := number c; cmcr := cmcr c; cmcnt := cmcnt c; cmcor := cmcor c;
     running := running c; compare_match_flag := compare_match_flag c;
     interrupt_enabled := e; interrupt_vector := interrupt_vector c |}.

Definition set_interrupt_vector (v : Z) (c : CMTChannel) :=
  {| number := number c; cmcr := cmcr c; cmcnt := cmcnt c; cmcor := cmcor c;
     running := running c; compare_match_flag := compare_match_flag c;
     interrupt_enabled := interrupt_enabled c; interrupt_vector := v |}.

(** [CMTClockDivider(self.cmcr & 0x03)] *)
Definition clock_divider (c : CMTChannel) : CMTClockDivider :=
  let sel := Z.land (cmcr c) 0x03 in
  if sel =? 0 then DIV_8 else if sel =? 1 then DIV_32
  else if sel =? 2 then DIV_128 else DIV_512.

Definition divider_value (c : CMTChannel) : Z :=
  match clock_divider c with
  | DIV_8 => 8 | DIV_32 => 32 | DIV_128 => 128 | DIV_512 => 512
  end.

Record CMTUnit := {
  unit_number : Z;
  base_address : Z;
  cmstr : Z;
  channels : Dict CMTChannel
}.

Definition set_cmstr (v : Z) (u : CMTUnit) :=
  {| unit_number := unit_number u; base_address := base_address u;
     cmstr := v; channels := channels u |}.

Definition set_channels (cs : Dict CMTChannel) (u : CMTUnit) :=
  {| unit_number := unit_number u; base_address := base_address u;
     cmstr := cmstr u; channels := cs |}.

(** [CMTUnit.__init__] *)
Definition new_unit (unit_number base_address : Z) : CMTUnit :=
  let ch_base := unit_number * 2 in
  {| unit_number := unit_number; base_address := base_address;
     cmstr := 0x0000;
     channels :=
       [ (0, set_interrupt_vector (28 + unit_number * 2) (new_channel ch_base));
         (1, set_interrupt_vector (29 + unit_number * 2)
               (new_channel (ch_base + 1))) ] |}.

Definition start_channel (ch : Z) (u : CMTUnit) : CMTUnit :=
  match dict_get ch (channels u) with
  | Some _ =>
      set_cmstr (Z.lor (cmstr u) (Z.shiftl 1 ch))
        (set_channels (dict_update ch (set_running true) (channels u)) u)
  | None => u
  end.

Definition stop_channel (ch : Z) (u : CMTUnit) : CMTUnit :=
  match dict_get ch (channels u) with
  | Some _ =>
      set_cmstr (Z.land (cmstr u) (Z.lnot (Z.shiftl 1 ch)))
        (set_channels (dict_update ch (set_running false) (channels u)) u)
  | None => u
  end.

Definition CMT0_BASE : Z := 0x00088000.
Definition CMT1_BASE : Z := 0x00088010.
Definition CMSTR_OFFSET : Z := 0x00.
Definition CMCR_OFFSET : Z := 0x02.
Definition CMCNT_OFFSET : Z := 0x04.
Definition CMCOR_OFFSET : Z := 0x06.

Record TimerController := {
  cmt_units : Dict CMTUnit;
  clock_hz : Z;
  prescale_counters : gmap Z Z
}.

Definition set_cmt_units (us : Dict CMTUnit) (t : TimerController) :=
  {| cmt_units := us; clock_hz := clock_hz t;
     prescale_counters := prescale_counters t |}.

Definition set_prescale_counters (pc : gmap Z Z) (t : TimerController) :=
  {| cmt_units := cmt_units t; clock_hz := clock_hz t;
     prescale_counters := pc |}.

(** [TimerController.__init__] *)
Definition init : TimerController :=
  {| cmt_units := [ (0, new_unit 0 CMT0_BASE); (1, new_unit 1 CMT1_BASE) ];
     clock_hz := 60000000;
     prescale_counters := ∅ |}.

Definition update_unit (u : Z) (f : CMTUnit → CMTUnit) (t : TimerController) :=
  set_cmt_units (dict_update u f (cmt_units t)) t.

Definition update_channel (u ch : Z) (f : CMTChannel → CMTChannel)
    (t : TimerController) :=
  update_unit u (λ un, set_channels (dict_update ch f (channels un)) un) t.

(** [self.cmt_units[unit].channels[ch]]; the callbacks are registered
    for the units and channels that exist, so the lookup cannot fail
    there, and a missing key reads as a fresh channel here. *)
Definition _get_channel (u ch : Z) (t : TimerController) : CMTChannel :=
  match dict_get u (cmt_units t) with
  | Some un => default (new_channel ch) (dict_get ch (channels un))
  | None => new_channel ch
  end.

Definition _read_cmstr (u : Z) (t : TimerController) : Z :=
  match dict_get u (cmt_units t) with
  | Some un => cmstr un
  | None => 0
  end.

Definition bit_set (value ch : Z) : bool :=
  negb (Z.land value (Z.shiftl 1 ch) =? 0).

Definition _write_cmstr (u value : Z) (t : TimerController) : TimerController :=
  let old := _read_cmstr u t in
  let t := update_unit u (set_cmstr (Z.land value 0x03)) t in
  foldl (λ t ch,
           if bit_set value ch && negb (bit_set old ch)
           then update_unit u (start_channel ch) t
           else if negb (bit_set value ch) && bit_set old ch
           then update_unit u (stop_channel ch) t
           else t)
        t (seqZ 0 2).

Definition _read_cmcr (u ch : Z) (t : TimerController) : Z :=
  cmcr (_get_channel u ch t).

Definition _write_cmcr (u ch value : Z) (t : TimerController) :=
  update_channel u ch
    (λ c, set_interrupt_enabled (negb (Z.land value 0x0040 =? 0))
            (set_cmcr (Z.land value 0x00C3) c)) t.

Definition _read_cmcnt (u ch : Z) (t : TimerController) : Z :=
  cmcnt (_get_channel u ch t).

Definition _write_cmcnt (u ch value : Z) (t : TimerController) :=
  update_channel u ch (set_cmcnt (Z.land value 0xFFFF)) t.

Definition _read_cmcor (u ch : Z) (t : TimerController) : Z :=
  cmcor (_get_channel u ch t).

Definition _write_cmcor (u ch value : Z) (t : TimerController) :=
  update_channel u ch (set_cmcor (Z.land value 0xFFFF)) t.

(** One pass through the body of the [while] loop of [tick]: the counter
    is incremented and compared with CMCOR.  The channel and the interrupt
    controller are the objects the body mutates.  No timer callback is
    ever registered in the repository, so the callback loop calls
    nothing. *)
Definition increment (c : CMTChannel) (ic : Interrupt.InterruptController)
    : CMTChannel * Interrupt.InterruptController :=
  let c := set_cmcnt (Z.land (cmcnt c + 1) 0xFFFF) c in
  if cmcnt c =? cmcor c then
    let c := set_compare_match_flag true c in
    let c := set_cmcnt 0 c in
    let ic := if interrupt_enabled c
              then Interrupt.request (interrupt_vector c) ic else ic in
    (c, ic)
  else (c, ic).

(** [while self.prescale_counters[ch_id] >= divider: ...].  Every pass
    lowers the prescale counter by [divider], which is at least 8, so
    [fuel] passes are enough as soon as [fuel] is at least the counter
    (see [Timer_facts.tick_loop_exit]). *)
Fixpoint tick_loop (fuel : nat) (divider prescale : Z) (c : CMTChannel)
    (ic : Interrupt.InterruptController)
    : Z * CMTChannel * Interrupt.InterruptController :=
  match fuel with
  | O => (prescale, c, ic)
  | S fuel =>
      if prescale >=? divider then
        let '(c, ic) := increment c ic in
        tick_loop fuel divider (prescale - divider) c ic
      else (prescale, c, ic)
  end.

(** The body of the two nested [for] loops of [tick] for the channel
    [ch_idx] of the unit stored under key [u]. *)
Definition tick_channel (cycles u ch_idx : Z)
    (st : TimerController * Interrupt.InterruptController)
    : TimerController * Interrupt.InterruptController :=
  let '(t, ic) := st in
  match dict_get u (cmt_units t) with
  | None => st
  | Some un =>
      match dict_get ch_idx (channels un) with
      | None => st
      | Some channel =>
          if negb (running channel) then st
          else
            let ch_id := unit_number un * 2 + ch_idx in
            let prescale := default 0 (prescale_counters t !! ch_id) + cycles in
            let divider := divider_value channel in
            let '(prescale, channel, ic) :=
              tick_loop (Z.to_nat prescale) divider prescale channel ic in
            let t := set_prescale_counters
                       (<[ch_id := prescale]> (prescale_counters t)) t in
            (update_channel u ch_idx (λ _, channel) t, ic)
      end
  end.

Definition tick (cycles : Z)
    (st : TimerController * Interrupt.InterruptController)
    : TimerController * Interrupt.InterruptController :=
  foldl (λ st '(u, un),
           foldl (λ st '(ch_idx, _), tick_channel cycles u ch_idx st)
                 st (channels un))
        st (cmt_units (fst st)).

Definition reset_channel (c : CMTChannel) : CMTChannel :=
  {| number := number c; cmcr := 0; cmcnt := 0; cmcor := 0xFFFF;
     running := false; compare_match_flag := false;
     interrupt_enabled := false; interrupt_vector := interrupt_vector c |}.

Definition reset (t : TimerController) : TimerController :=
  {| cmt_units :=
       (λ e, (fst e,
              set_cmstr 0
                (set_channels
                   ((λ c, (fst c, reset_channel (snd c))) <$> channels (snd e))
                   (snd e)))) <$> cmt_units t;
     clock_hz := clock_hz t;
     prescale_counters := ∅ |}.

Section Handlers.

Context {P : Type} (get_timer : P → TimerController)
  (put_timer : TimerController → P → P).

Definition reg_read (f : TimerController → Z) : option (Z → P → Z * P) :=
  Some (λ a p, (f (get_timer p), p)).

Definition reg_write (f : Z → TimerController → TimerController)
    : option (Z → Z → P → P) :=
  Some (λ a v p, put_timer (f v (get_timer p)) p).

Definition _register_peripheral_handlers (t : TimerController)
    (m : Memory.MemoryController P) : Memory.MemoryController P :=
  foldl (λ m '(unit_num, un),
     let base := base_address un in
     let m := Memory.register_peripheral (base + CMSTR_OFFSET)
                (reg_read (_read_cmstr unit_num))
                (reg_write (_write_cmstr unit_num)) m in
     foldl (λ m ch_idx,
        let ch_offset := ch_idx * 8 + 2 in
        let m := Memory.register_peripheral (base + ch_offset + 0)
                   (reg_read (_read_cmcr unit_num ch_idx))
                   (reg_write (_write_cmcr unit_num ch_idx)) m in
        let m := Memory.register_peripheral (base + ch_offset + 2)
                   (reg_read (_read_cmcnt unit_num ch_idx))
                   (reg_write (_write_cmcnt unit_num ch_idx)) m in
        Memory.register_peripheral (base + ch_offset + 4)
          (reg_read (_read_cmcor unit_num ch_idx))
          (reg_write (_write_cmcor unit_num ch_idx)) m)
      m (seqZ 0 2))
    m (cmt_units t).

End Handlers.

End Timer.

(** ** cpu.py *)

Module Cpu.

(** [PSWFlags] *)
Definition PSW_C : Z := 0x00000001.
Definition PSW_Z : Z := 0x00000002.
Definition PSW_S : Z := 0x00000004.
Definition PSW_O : Z := 0x00000008.
Definition PSW_I : Z := 0x00010000.
Definition PSW_U : Z := 0x00020000.
Definition PSW_PM : Z := 0x00100000.
Definition IPL_MASK : Z := 0x0F000000.

Inductive CPUState := STOPPED | RUNNING | HALTED | WAITING | EXCEPTION.

#[global] Instance CPUState_eq_dec : EqDecision CPUState.
Proof. solve_decision. Defined.

(** [r] always has its sixteen cells and every index the source uses is
    a nibble, so no list access is out of range. *)
Record CPURegisters := {
  r : list Z;
  pc : Z;
  psw : Z;
  isp : Z;
  usp : Z;
  fpsw : Z;
  acc : Z
}.

(** [CPURegisters()] *)
Definition new_registers : CPURegisters :=
  {| r := replicate 16 0; pc := 0; psw := PSW_I; isp := 0; usp := 0;
     fpsw := 0; acc := 0 |}.

Definition set_r_list (l : list Z) (g : CPURegisters) :=
  {| r := l; pc := pc g; psw := psw g; isp := isp g; usp := usp g;
     fpsw := fpsw g; acc := acc g |}.

Definition set_pc (v : Z) (g : CPURegisters) :=
  {| r := r g; pc := v; psw := psw g; isp := isp g; usp := usp g;
     fpsw := fpsw g; acc := acc g |}.

Definition set_psw (v : Z) (g : CPURegisters) :=
  {| r := r g; pc := pc g; psw := v; isp := isp g; usp := usp g;
     fpsw := fpsw g; acc := acc g |}.

(** [self.r[i]] and [self.r[i] = v] *)
Definition get_r (i : Z) (g : CPURegisters) : Z :=
  default 0 (r g !! Z.to_nat i).

Definition set_r (i v : Z) (g : CPURegisters) : CPURegisters :=
  set_r_list (<[Z.to_nat i := v]> (r g)) g.

Definition sp (g : CPURegisters) : Z := get_r 0 g.

Definition set_sp (value : Z) (g : CPURegisters) : CPURegisters :=
  set_r 0 (Z.land value 0xFFFFFFFF) g.

Definition ipl (g : CPURegisters) : Z :=
  Z.land (Z.shiftr (psw g) 24) 0x0F.

Definition set_ipl (value : Z) (g : CPURegisters) : CPURegisters :=
  set_psw (Z.lor (Z.land (psw g) (Z.lnot IPL_MASK))
                 (Z.shiftl (Z.land value 0x0F) 24)) g.

Definition get_flag (flag : Z) (g : CPURegisters) : bool :=
  negb (Z.land (psw g) flag =? 0).

Definition set_flag (flag : Z) (value : bool) (g : CPURegisters) : CPURegisters :=
  if value then set_psw (Z.lor (psw g) flag) g
  else set_psw (Z.land (psw g) (Z.lnot flag)) g.

Definition truthy (z : Z) : bool := negb (z =? 0).

Definition update_flags_arithmetic (result op1 op2 : Z)
    (is_subtraction : bool) (bits : Z) (g : CPURegisters) : CPURegisters :=
  let mask := Z.shiftl 1 bits - 1 in
  let sign_bit := Z.shiftl 1 (bits - 1) in
  let g := set_flag PSW_Z (Z.land result mask =? 0) g in
  let g := set_flag PSW_S (truthy (Z.land result sign_bit)) g in
  let g := if is_subtraction
           then set_flag PSW_C (op1 <? op2) g
           else set_flag PSW_C (result >? mask) g in
  let op1_sign := truthy (Z.land op1 sign_bit) in
  let op2_sign := truthy (Z.land op2 sign_bit) in
  let result_sign := truthy (Z.land result sign_bit) in
  let overflow :=
    if is_subtraction
    then negb (eqb op1_sign op2_sign) && negb (eqb result_sign op1_sign)
    else eqb op1_sign op2_sign && negb (eqb result_sign op1_sign) in
  set_flag PSW_O overflow g.

Definition update_flags_logical (result bits : Z) (g : CPURegisters)
    : CPURegisters :=
  let mask := Z.shiftl 1 bits - 1 in
  let sign_bit := Z.shiftl 1 (bits - 1) in
  let g := set_flag PSW_Z (Z.land result mask =? 0) g in
  set_flag PSW_S (truthy (Z.land result sign_bit)) g.

(** The bound methods stored in [_instruction_table]: [Op_nop] stands
    for [self._op_nop], and so on; [call] below runs them. *)
Inductive Handler :=
  | Op_nop | Op_mov_imm32 | Op_mov_reg | Op_add_imm4 | Op_add_reg
  | Op_sub_reg | Op_cmp_imm4 | Op_and_reg | Op_or_reg | Op_xor_reg
  | Op_push | Op_pop | Op_bsr_w | Op_bra_w | Op_beq | Op_bne
  | Op_rts | Op_mov_b_store | Op_mov_b_load | Op_mov_l_store
  | Op_mov_l_load | Op_fd_prefix | Op_fc_prefix | Op_76_prefix.

#[global] Instance Handler_eq_dec : EqDecision Handler.
Proof. solve_decision. Defined.

(** [for i in range(lo, hi): table[i] = h] *)
Definition assign_range (lo hi : Z) (h : Handler) (t : gmap Z Handler)
    : gmap Z Handler :=
  foldl (λ t i, <[i := h]> t) t (seqZ lo (hi - lo)).

(** The assignments of [_build_instruction_table], in source order: a
    later assignment to the same opcode replaces the earlier one. *)
Definition _build_instruction_table : gmap Z Handler :=
  let t : gmap Z Handler := ∅ in
  let t := <[0x03 := Op_nop]> t in
  let t := <[0xFB := Op_mov_imm32]> t in
  let t := <[0xEF := Op_mov_reg]> t in
  let t := <[0x62 := Op_add_imm4]> t in
  let t := assign_range 0x48 0x4C Op_add_reg t in
  let t := assign_range 0x44 0x48 Op_sub_reg t in
  let t := <[0x61 := Op_cmp_imm4]> t in
  let t := assign_range 0x50 0x54 Op_and_reg t in
  let t := assign_range 0x54 0x58 Op_or_reg t in
  let t := assign_range 0x58 0x5C Op_xor_reg t in
  let t := <[0x7E := Op_push]> t in
  let t := <[0x7F := Op_pop]> t in
  let t := <[0x39 := Op_bsr_w]> t in
  let t := <[0x38 := Op_bra_w]> t in
  let t := <[0x20 := Op_beq]> t in
  let t := <[0x21 := Op_bne]> t in
  let t := <[0x02 := Op_rts]> t in
  let t := assign_range 0xC0 0xC4 Op_mov_b_store t in
  let t := assign_range 0xCC 0xD0 Op_mov_b_load t in
  let t := assign_range 0xE0 0xE4 Op_mov_l_store t in
  let t := assign_range 0xEC 0xF0 Op_mov_l_load t in
  let t := <[0xFD := Op_fd_prefix]> t in
  let t := <[0xFC := Op_fc_prefix]> t in
  <[0x76 := Op_76_prefix]> t.

(** The [RuntimeError] of [_undefined_instruction]: the opcode and the
    PC that its message prints. *)
Record RuntimeError := {
  err_opcode : Z;
  err_pc : Z
}.

Inductive Outcome (A : Type) :=
  | Done (a : A)
  | Raise (e : RuntimeError).

Arguments Done {A} a.
Arguments Raise {A} e.

Section Core.

(** The CPU is wired as [RX65NEmulator._connect_components] does it: the
    memory controller and the interrupt controller are both connected.
    [P] is the state of the components behind the bus, in which
    [get_ic] and [put_ic] locate the interrupt controller. *)
Context {P : Type} (get_ic : P → Interrupt.InterruptController)
  (put_ic : Interrupt.InterruptController → P → P).

(** No trace callback is ever installed in the repository, so
    [trace_callback] stays [None]. *)
Record RXCpu := {
  regs : CPURegisters;
  state : CPUState;
  memory : Memory.Bus P;
  cycle_count : Z;
  instruction_count : Z;
  breakpoints : gset Z
}.

Definition set_regs (g : CPURegisters) (c : RXCpu) :=
  {| regs := g; state := state c; memory := memory c;
     cycle_count := cycle_count c;
     instruction_count := instruction_count c;
     breakpoints := breakpoints c |}.

Definition set_state (s : CPUState) (c : RXCpu) :=
  {| regs := regs c; state := s; memory := memory c;
     cycle_count := cycle_count c;
     instruction_count := instruction_count c;
     breakpoints := breakpoints c |}.

Definition set_memory (b : Memory.Bus P) (c : RXCpu) :=
  {| regs := regs c; state := state c; memory := b;
     cycle_count := cycle_count c;
     instruction_count := instruction_count c;
     breakpoints := breakpoints c |}.

Definition set_cycle_count (n : Z) (c : RXCpu) :=
  {| regs := regs c; state := state c; memory := memory c;
     cycle_count := n;
     instruction_count := instruction_count c;
     breakpoints := breakpoints c |}.

Definition set_instruction_count (n : Z) (c : RXCpu) :=
  {| regs := regs c; state := state c; memory := memory c;
     cycle_count := cycle_count c;
     instruction_count := n;
     breakpoints := breakpoints c |}.

Definition set_breakpoints (bp : gset Z) (c : RXCpu) :=
  {| regs := regs c; state := state c; memory := memory c;
     cycle_count := cycle_count c;
     instruction_count := instruction_count c;
     breakpoints := bp |}.

(** A method of [RXCpu]: it mutates the object and returns a value or
    raises; the mutations made before a [raise] stay. *)
Definition M (A : Type) : Type := RXCpu → Outcome A * RXCpu.

Definition ret {A} (a : A) : M A := λ c, (Done a, c).

Definition bind {A B} (m : M A) (k : A → M B) : M B :=
  λ c, match m c with
       | (Done a, c) => k a c
       | (Raise e, c) => (Raise e, c)
       end.

Definition raise {A} (e : RuntimeError) : M A := λ c, (Raise e, c).

Definition gets {A} (f : RXCpu → A) : M A := λ c, (Done (f c), c).

Definition modify (f : RXCpu → RXCpu) : M unit := λ c, (Done tt, f c).

Definition modify_regs (f : CPURegisters → CPURegisters) : M unit :=
  modify (λ c, set_regs (f (regs c)) c).

Definition mem_read (rd : Z → Memory.Bus P → Z * Memory.Bus P) (address : Z)
    : M Z :=
  λ c, let '(v, b) := rd address (memory c) in (Done v, set_memory b c).

Definition mem_write (wr : Z → Z → Memory.Bus P → Memory.Bus P)
    (address value : Z) : M unit :=
  modify (λ c, set_memory (wr address value (memory c)) c).

Definition with_ic (f : Interrupt.InterruptController → Interrupt.InterruptController)
    : M unit :=
  modify (λ c, set_memory
                 (Memory.set_dev (put_ic (f (get_ic (Memory.dev (memory c))))
                                         (Memory.dev (memory c)))
                                 (memory c)) c).

Notation "'let*' x ':=' c 'in' k" := (bind c (λ x, k))
  (at level 10, x name, c at level 100, k at level 200).
Notation "c >> k" := (bind c (λ _, k))
  (at level 100, k at level 200, right associativity).

Definition _fetch : M Z :=
  let* g := gets regs in
  let* opcode := mem_read Memory.read8 (pc g) in
  modify_regs (λ g, set_pc (Z.land (pc g + 1) 0xFFFFFFFF) g) >>
  modify (λ c, set_cycle_count (cycle_count c + 1) c) >>
  ret opcode.

Definition _fetch16 : M Z :=
  let* g := gets regs in
  let* value := mem_read Memory.read16 (pc g) in
  modify_regs (λ g, set_pc (Z.land (pc g + 2) 0xFFFFFFFF) g) >>
  modify (λ c, set_cycle_count (cycle_count c + 2) c) >>
  ret value.

Definition _fetch32 : M Z :=
  let* g := gets regs in
  let* value := mem_read Memory.read32 (pc g) in
  modify_regs (λ g, set_pc (Z.land (pc g + 4) 0xFFFFFFFF) g) >>
  modify (λ c, set_cycle_count (cycle_count c + 4) c) >>
  ret value.

Definition _undefined_instruction {A} (opcode : Z) : M A :=
  modify (set_state EXCEPTION) >>
  let* g := gets regs in
  raise {| err_opcode := opcode; err_pc := pc g |}.

(** [rs = (second >> 4) & 0x0F] and [rd = second & 0x0F] *)
Definition high_nibble (second : Z) : Z := Z.land (Z.shiftr second 4) 0x0F.
Definition low_nibble (second : Z) : Z := Z.land second 0x0F.

(** [if imm4 & 0x08: imm4 |= 0xFFFFFFF0] and its siblings *)
Definition sign_extend (test fill value : Z) : Z :=
  if truthy (Z.land value test) then Z.lor value fill else value.

Definition _op_nop : M unit := ret tt.

Definition _op_mov_imm32 : M unit :=
  let* second := _fetch in
  let rd := low_nibble second in
  let* imm32 := _fetch32 in
  modify_regs (set_r rd imm32).

Definition _op_mov_reg : M unit :=
  let* second := _fetch in
  let rs := high_nibble second in
  let rd := low_nibble second in
  modify_regs (λ g, set_r rd (get_r rs g) g).

Definition _op_add_imm4 : M unit :=
  let* second := _fetch in
  let imm4 := high_nibble second in
  let rd := low_nibble second in
  let imm4 := sign_extend 0x08 0xFFFFFFF0 imm4 in
  modify_regs (λ g,
    let op1 := get_r rd g in
    let result := Z.land (op1 + imm4) 0xFFFFFFFF in
    let g := update_flags_arithmetic result op1 (Z.land imm4 0xFFFFFFFF)
               false 32 g in
    set_r rd result g).

Definition _op_add_reg : M unit :=
  let* second := _fetch in
  let rs := high_nibble second in
  let rd := low_nibble second in
  modify_regs (λ g,
    let op1 := get_r rd g in
    let op2 := get_r rs g in
    let result := Z.land (op1 + op2) 0xFFFFFFFF in
    let g := update_flags_arithmetic result op1 op2 false 32 g in
    set_r rd result g).

Definition _op_sub_reg : M unit :=
  let* second := _fetch in
  let rs := high_nibble second in
  let rd := low_nibble second in
  modify_regs (λ g,
    let op1 := get_r rd g in
    let op2 := get_r rs g in
    let result := Z.land (op1 - op2) 0xFFFFFFFF in
    let g := update_flags_arithmetic result op1 op2 true 32 g in
    set_r rd result g).

Definition _op_cmp_imm4 : M unit :=
  let* second := _fetch in
  let imm4 := high_nibble second in
  let rd := low_nibble second in
  let imm4 := sign_extend 0x08 0xFFFFFFF0 imm4 in
  modify_regs (λ g,
    let op1 := get_r rd g in
    let result := Z.land (op1 - Z.land imm4 0xFFFFFFFF) 0xFFFFFFFF in
    update_flags_arithmetic result op1 (Z.land imm4 0xFFFFFFFF) true 32 g).

Definition _op_and_reg : M unit :=
  let* second := _fetch in
  let rs := high_nibble second in
  let rd := low_nibble second in
  modify_regs (λ g,
    let result := Z.land (get_r rd g) (get_r rs g) in
    let g := update_flags_logical result 32 g in
    set_r rd result g).

Definition _op_or_reg : M unit :=
  let* second := _fetch in
  let rs := high_nibble second in
  let rd := low_nibble second in
  modify_regs (λ g,
    let result := Z.lor (get_r rd g) (get_r rs g) in
    let g := update_flags_logical result 32 g in
    set_r rd result g).

Definition _op_xor_reg : M unit :=
  let* second := _fetch in
  let rs := high_nibble second in
  let rd := low_nibble second in
  modify_regs (λ g,
    let result := Z.lxor (get_r rd g) (get_r rs g) in
    let g := update_flags_logical result 32 g in
    set_r rd result g).

Definition _op_push : M unit :=
  let* second := _fetch in
  let rs := low_nibble second in
  modify_regs (λ g, set_sp (Z.land (sp g - 4) 0xFFFFFFFF) g) >>
  let* g := gets regs in
  mem_write Memory.write32 (sp g) (get_r rs g).

Definition _op_pop : M unit :=
  let* second := _fetch in
  let rd := low_nibble second in
  let* g := gets regs in
  let* value := mem_read Memory.read32 (sp g) in
  modify_regs (set_r rd value) >>
  modify_regs (λ g, set_sp (Z.land (sp g + 4) 0xFFFFFFFF) g).

Definition _op_bsr_w : M unit :=
  let* disp16 := _fetch16 in
  let disp16 := sign_extend 0x8000 0xFFFF0000 disp16 in
  modify_regs (λ g, set_sp (Z.land (sp g - 4) 0xFFFFFFFF) g) >>
  let* g := gets regs in
  mem_write Memory.write32 (sp g) (pc g) >>
  modify_regs (λ g, set_pc (Z.land (pc g + disp16) 0xFFFFFFFF) g).

Definition _op_bra_w : M unit :=
  let* disp16 := _fetch16 in
  let disp16 := sign_extend 0x8000 0xFFFF0000 disp16 in
  modify_regs (λ g, set_pc (Z.land (pc g + disp16) 0xFFFFFFFF) g).

Definition _op_beq : M unit :=
  let* disp8 := _fetch in
  let* g := gets regs in
  if get_flag PSW_Z g then
    let disp8 := sign_extend 0x80 0xFFFFFF00 disp8 in
    modify_regs (λ g, set_pc (Z.land (pc g + disp8) 0xFFFFFFFF) g)
  else ret tt.

Definition _op_bne : M unit :=
  let* disp8 := _fetch in
  let* g := gets regs in
  if negb (get_flag PSW_Z g) then
    let disp8 := sign_extend 0x80 0xFFFFFF00 disp8 in
    modify_regs (λ g, set_pc (Z.land (pc g + disp8) 0xFFFFFFFF) g)
  else ret tt.

Definition _op_rts : M unit :=
  let* g := gets regs in
  let* target := mem_read Memory.read32 (sp g) in
  modify_regs (set_pc target) >>
  modify_regs (λ g, set_sp (Z.land (sp g + 4) 0xFFFFFFFF) g).

Definition _op_mov_b_store : M unit :=
  let* second := _fetch in
  let rs := high_nibble second in
  let rd := low_nibble second in
  let* g := gets regs in
  mem_write Memory.write8 (get_r rd g) (Z.land (get_r rs g) 0xFF).

Definition _op_mov_b_load : M unit :=
  let* second := _fetch in
  let rs := high_nibble second in
  let rd := low_nibble second in
  let* g := gets regs in
  let* value := mem_read Memory.read8 (get_r rs g) in
  modify_regs (set_r rd value).

Definition _op_mov_l_store : M unit :=
  let* second := _fetch in
  let rs := high_nibble second in
  let rd := low_nibble second in
  let* g := gets regs in
  mem_write Memory.write32 (get_r rd g) (get_r rs g).

Definition _op_mov_l_load : M unit :=
  let* second := _fetch in
  let rs := high_nibble second in
  let rd := low_nibble second in
  let* g := gets regs in
  let* value := mem_read Memory.read32 (get_r rs g) in
  modify_regs (set_r rd value).

(** The [if]/[elif] chain shared by SETPSW and CLRPSW. *)
Definition psw_flag_of (flag_bit : Z) : option Z :=
  if flag_bit =? 0 then Some PSW_C
  else if flag_bit =? 1 then Some PSW_Z
  else if flag_bit =? 2 then Some PSW_S
  else if flag_bit =? 3 then Some PSW_O
  else if flag_bit =? 8 then Some PSW_I
  else None.

Definition op_psw (value : bool) : M unit :=
  let* third := _fetch in
  let flag_bit := Z.land third 0x0F in
  match psw_flag_of flag_bit with
  | Some flag => modify_regs (set_flag flag value)
  | None => ret tt
  end.

Definition _op_fd_prefix : M unit :=
  let* second := _fetch in
  if second =? 0x72 then op_psw true
  else if second =? 0x73 then op_psw false
  else _undefined_instruction (Z.lor 0xFD00 second).

Definition _op_fc_prefix : M unit :=
  let* second := _fetch in
  _undefined_instruction (Z.lor 0xFC00 second).

Definition _op_76_prefix : M unit :=
  let* second := _fetch in
  if second =? 0x90 then modify (set_state WAITING)
  else _undefined_instruction (Z.lor 0x7600 second).

Definition call (h : Handler) : M unit :=
  match h with
  | Op_nop => _op_nop
  | Op_mov_imm32 => _op_mov_imm32
  | Op_mov_reg => _op_mov_reg
  | Op_add_imm4 => _op_add_imm4
  | Op_add_reg => _op_add_reg
  | Op_sub_reg => _op_sub_reg
  | Op_cmp_imm4 => _op_cmp_imm4
  | Op_and_reg => _op_and_reg
  | Op_or_reg => _op_or_reg
  | Op_xor_reg => _op_xor_reg
  | Op_push => _op_push
  | Op_pop => _op_pop
  | Op_bsr_w => _op_bsr_w
  | Op_bra_w => _op_bra_w
  | Op_beq => _op_beq
  | Op_bne => _op_bne
  | Op_rts => _op_rts
  | Op_mov_b_store => _op_mov_b_store
  | Op_mov_b_load => _op_mov_b_load
  | Op_mov_l_store => _op_mov_l_store
  | Op_mov_l_load => _op_mov_l_load
  | Op_fd_prefix => _op_fd_prefix
  | Op_fc_prefix => _op_fc_prefix
  | Op_76_prefix => _op_76_prefix
  end.

Definition _execute (opcode : Z) : M unit :=
  match _build_instruction_table !! opcode with
  | Some handler => call handler
  | None => _undefined_instruction opcode
  end.

Definition _handle_interrupt (vector : Z) : M unit :=
  modify_regs (λ g, set_sp (Z.land (sp g - 4) 0xFFFFFFFF) g) >>
  let* g := gets regs in
  mem_write Memory.write32 (sp g) (psw g) >>
  modify_regs (λ g, set_sp (Z.land (sp g - 4) 0xFFFFFFFF) g) >>
  let* g := gets regs in
  mem_write Memory.write32 (sp g) (pc g) >>
  modify_regs (set_flag PSW_I false) >>
  modify_regs (set_ipl vector) >>
  let vector_addr := 0xFFFFFF80 + vector * 4 in
  let* handler := mem_read Memory.read32 vector_addr in
  modify_regs (set_pc handler) >>
  with_ic (Interrupt.acknowledge vector).

(** The interrupt check at the head of [step]. *)
Definition interrupt_gate : M unit :=
  let* c := gets id in
  if get_flag PSW_I (regs c) then
    match Interrupt.get_pending_interrupt (get_ic (Memory.dev (memory c))) with
    | Some pending =>
        if pending >? ipl (regs c) then _handle_interrupt pending else ret tt
    | None => ret tt
    end
  else ret tt.

Definition step : M bool :=
  let* c := gets id in
  if decide (pc (regs c) ∈ breakpoints c) then
    modify (set_state STOPPED) >> ret false
  else
    interrupt_gate >>
    let* opcode := _fetch in
    _execute opcode >>
    modify (λ c, set_instruction_count (instruction_count c + 1) c) >>
    gets (λ c, bool_decide (state c = RUNNING)).

Definition reset : M unit :=
  modify (set_regs new_registers) >>
  modify (set_state STOPPED) >>
  modify (set_cycle_count 0) >>
  modify (set_instruction_count 0) >>
  let* reset_vector := mem_read Memory.read32 0xFFFFFFFC in
  modify_regs (set_pc reset_vector) >>
  modify_regs (set_sp 0x00020000) >>
  modify_regs (set_psw PSW_I) >>
  modify (set_state STOPPED).

Definition start : M unit := modify (set_state RUNNING).

Definition stop : M unit := modify (set_state STOPPED).

Definition execute_rte : M unit :=
  let* g := gets regs in
  let* target := mem_read Memory.read32 (sp g) in
  modify_regs (set_pc target) >>
  modify_regs (λ g, set_sp (Z.land (sp g + 4) 0xFFFFFFFF) g) >>
  let* g := gets regs in
  let* saved := mem_read Memory.read32 (sp g) in
  modify_regs (set_psw saved) >>
  modify_regs (λ g, set_sp (Z.land (sp g + 4) 0xFFFFFFFF) g).

(** [RXCpu.__init__] followed by [connect_memory] and
    [connect_interrupt_controller]. *)
Definition init (b : Memory.Bus P) : RXCpu :=
  {| regs := new_registers; state := STOPPED; memory := b;
     cycle_count := 0; instruction_count := 0; breakpoints := ∅ |}.

End Core.

Arguments RXCpu : clear implicits.
Arguments M : clear implicits.

End Cpu.

(** ** emulator.py *)

Module Emulator.

Section Facade.

(** [D] is the state of the components that are not modelled in detail:
    the GPIO ports, the board (LEDs, switches, UART) and the divider
    configuration of the clock controller.  Their peripheral bindings
    and their [reset] methods are parameters. *)
Context {D : Type}.

Record Periph := {
  interrupt : Interrupt.InterruptController;
  timer : Timer.TimerController;
  tick_count : Z;      (* ClockController.tick_count *)
  others : D
}.

Definition set_interrupt (ic : Interrupt.InterruptController) (p : Periph) :=
  {| interrupt := ic; timer := timer p; tick_count := tick_count p;
     others := others p |}.

Definition set_timer (t : Timer.TimerController) (p : Periph) :=
  {| interrupt := interrupt p; timer := t; tick_count := tick_count p;
     others := others p |}.

Definition set_tick_count (n : Z) (p : Periph) :=
  {| interrupt := interrupt p; timer := timer p; tick_count := n;
     others := others p |}.

Definition set_others (d : D) (p : Periph) :=
  {| interrupt := interrupt p; timer := timer p; tick_count := tick_count p;
     others := d |}.

Context
  (connect_clock connect_gpio connect_board :
     Memory.MemoryController Periph → Memory.MemoryController Periph)
  (gpio_reset board_reset clock_reset : D → D).

(** No [on_step], [on_breakpoint] or [on_error] callback is installed by
    the façade itself; they are [None] after [__init__]. *)
Record RX65NEmulator := {
  cpu : Cpu.RXCpu Periph;
  execution_breakpoints : gset Z;
  running : bool;
  last_error : option Cpu.RuntimeError
}.

Definition set_cpu (c : Cpu.RXCpu Periph) (e : RX65NEmulator) :=
  {| cpu := c; execution_breakpoints := execution_breakpoints e;
     running := running e; last_error := last_error e |}.

Definition set_running (r : bool) (e : RX65NEmulator) :=
  {| cpu := cpu e; execution_breakpoints := execution_breakpoints e;
     running := r; last_error := last_error e |}.

Definition set_last_error (err : option Cpu.RuntimeError) (e : RX65NEmulator) :=
  {| cpu := cpu e; execution_breakpoints := execution_breakpoints e;
     running := running e; last_error := err |}.

Definition set_execution_breakpoints (bp : gset Z) (e : RX65NEmulator) :=
  {| cpu := cpu e; execution_breakpoints := bp;
     running := running e; last_error := last_error e |}.

Definition update_periph (f : Periph → Periph) (c : Cpu.RXCpu Periph) :=
  Cpu.set_memory (Memory.set_dev (f (Memory.dev (Cpu.memory c)))
                                 (Cpu.memory c)) c.

Definition update_mem
    (f : Memory.MemoryController Periph → Memory.MemoryController Periph)
    (c : Cpu.RXCpu Periph) :=
  Cpu.set_memory (Memory.set_mem (f (Memory.mem (Cpu.memory c)))
                                 (Cpu.memory c)) c.

(** [__init__] with [_connect_components]: the components register their
    peripheral callbacks in the order clock, GPIO, timer, interrupt
    controller, board. *)
Definition init (d : D) : RX65NEmulator :=
  let p := {| interrupt := Interrupt.init; timer := Timer.init;
              tick_count := 0; others := d |} in
  let m := Memory.init in
  let m := connect_clock m in
  let m := connect_gpio m in
  let m := Timer._register_peripheral_handlers timer set_timer Timer.init m in
  let m := Interrupt._register_peripheral_handlers interrupt set_interrupt m in
  let m := connect_board m in
  {| cpu := Cpu.init {| Memory.mem := m; Memory.dev := p |};
     execution_breakpoints := ∅; running := false; last_error := None |}.

(** [_on_clock_tick], the only tick callback: [self.timer.tick(cycles)] *)
Definition _on_clock_tick (cycles : Z) (p : Periph) : Periph :=
  let '(t, ic) := Timer.tick cycles (timer p, interrupt p) in
  set_interrupt ic (set_timer t p).

(** [ClockController.tick] *)
Definition clock_tick (cycles : Z) (p : Periph) : Periph :=
  let p := set_tick_count (tick_count p + cycles) p in
  _on_clock_tick cycles p.

Definition step (e : RX65NEmulator) : bool * RX65NEmulator :=
  if decide (Cpu.pc (Cpu.regs (cpu e)) ∈ execution_breakpoints e) then
    (false, e)
  else
    match Cpu.step interrupt set_interrupt (cpu e) with
    | (Cpu.Done result, c) =>
        let c := update_periph (clock_tick (Cpu.cycle_count c)) c in
        (result, set_cpu c e)
    | (Cpu.Raise err, c) =>
        (false, set_running false (set_last_error (Some err) (set_cpu c e)))
    end.

(** [_on_reset], the only reset callback.  [Cpu.reset] cannot raise. *)
Definition _on_reset (c : Cpu.RXCpu Periph) : Cpu.RXCpu Periph :=
  let c := snd (Cpu.reset c) in
  let c := update_periph (λ p, set_others (gpio_reset (others p)) p) c in
  let c := update_periph (λ p, set_timer (Timer.reset (timer p)) p) c in
  let c := update_periph (λ p, set_interrupt (Interrupt.reset (interrupt p)) p) c in
  let c := update_periph (λ p, set_others (board_reset (others p)) p) c in
  update_periph (λ p, set_tick_count 0 (set_others (clock_reset (others p)) p)) c.

(** [reset]: [ResetController.trigger_reset] resets the memory and runs
    the callback. *)
Definition reset (e : RX65NEmulator) : RX65NEmulator :=
  let c := update_mem Memory.reset (cpu e) in
  let c := _on_reset c in
  set_last_error None (set_running false (set_cpu c e)).

Definition add_breakpoint (address : Z) (e : RX65NEmulator) :=
  set_cpu (Cpu.set_breakpoints ({[address]} ∪ Cpu.breakpoints (cpu e)) (cpu e))
    (set_execution_breakpoints ({[address]} ∪ execution_breakpoints e) e).

Definition load_binary_data (bytes : list Z) (address : Z) (e : RX65NEmulator) :=
  set_cpu (Cpu.set_memory (Memory.load_binary address bytes (Cpu.memory (cpu e)))
             (cpu e)) e.

Definition write_memory (address value size : Z) (e : RX65NEmulator) :=
  let b := Cpu.memory (cpu e) in
  let b := if size =? 1 then Memory.write8 address value b
           else if size =? 2 then Memory.write16 address value b
           else if size =? 4 then Memory.write32 address value b
           else b in
  set_cpu (Cpu.set_memory b (cpu e)) e.

End Facade.

Arguments Periph : clear implicits.
Arguments RX65NEmulator : clear implicits.

End Emulator.

(** ** Vocabulary of the properties *)

Module Memory_aux.

Import Memory.

Section Aux.

Context {P : Type}.

Definition mask32 (a : Z) : Z := Z.land a 0xFFFFFFFF.

(** The byte that a read sees at an address without a peripheral
    binding. *)
Definition peek (bs : list MemoryBlock) (x : Z) : Z :=
  match _find_block x bs with
  | Some (_, blk) => default 0 (data blk !! (x - start blk))
  | None => 0xFF
  end.

(** An address that the dispatch of [write8] sends to the backing buffer
    of a block that accepts the write. *)
Definition plain_writable (b : Bus P) (x : Z) : Prop :=
  peripheral_handlers (mem b) !! x = None ∧
  ∃ i blk, _find_block x (blocks (mem b)) = Some (i, blk) ∧
           readonly blk = false.

Definition plain_range (b : Bus P) (a w : Z) : Prop :=
  ∀ k, 0 ≤ k < w → plain_writable b (mask32 (a + k)).

(** What a little-endian store of [n] bytes leaves behind. *)
Record stored (b b' : Bus P) (a : Z) (bytes : list Z) : Prop := {
  stored_peek : ∀ k x, bytes !! k = Some x →
      peek (blocks (mem b')) (mask32 (a + Z.of_nat k)) = Z.land x 0xFF;
  stored_handlers : peripheral_handlers (mem b') = peripheral_handlers (mem b);
  stored_plain : ∀ y, plain_writable b y → plain_writable b' y
}.

End Aux.

End Memory_aux.

Module Cpu_aux.

Import Cpu.

Section Aux.

Context {P : Type}.

(** A method that cannot raise. *)
Definition total {A} (m : M P A) : Prop :=
  ∀ c, ∃ a, fst (m c) = Done a.

(** *** What an instruction may do to the cycle counter and the state

    The cycle counter never decreases, and the only states an
    instruction or an interrupt entry can move the engine to are WAITING
    and EXCEPTION. *)
Definition advances (c c' : RXCpu P) : Prop :=
  cycle_count c ≤ cycle_count c' ∧
  (state c' = state c ∨ state c' = WAITING ∨ state c' = EXCEPTION).

Definition keeps {A} (m : M P A) : Prop := ∀ c, advances c (snd (m c)).

End Aux.

End Cpu_aux.

Module Timer_aux.

Import Timer.

(** [n] passes through the body of the [while] loop. *)
Fixpoint increments (n : nat) (c : CMTChannel)
    (ic : Interrupt.InterruptController)
    : CMTChannel * Interrupt.InterruptController :=
  match n with
  | O => (c, ic)
  | S n => let '(c, ic) := increment c ic in increments n c ic
  end.

End Timer_aux.

Module Emulator_aux.

Import Emulator.

Section Aux.

Context {D : Type}.

(** The bus as [ResetController.trigger_reset] leaves it for the reset
    callback: the RAM cleared. *)
Definition bus_after_memory_reset (e : RX65NEmulator D) : Memory.Bus (Periph D) :=
  Memory.set_mem (Memory.reset (Memory.mem (Cpu.memory (cpu e))))
    (Cpu.memory (cpu e)).

End Aux.

End Emulator_aux.

(** ** Concrete machines

    The façade built with [D := unit]: the callbacks of the clock, GPIO
    and board registers, which are parameters of the model, are left
    out; none of the runs below touches one of their addresses.  The
    interrupt controller and the timer are bound as in the source. *)

Module Examples.

Definition Periph : Type := Emulator.Periph unit.
Definition Emu : Type := Emulator.RX65NEmulator unit.

(** [emu = RX65NEmulator()] *)
Definition emu0 : Emu := Emulator.init (λ m, m) (λ m, m) (λ m, m) tt.

Definition bus0 : Memory.Bus Periph := Cpu.memory (Emulator.cpu emu0).

Definition step : Emu → bool * Emu := Emulator.step.

Definition cpu_step : Cpu.M Periph bool :=
  Cpu.step Emulator.interrupt Emulator.set_interrupt.

(** [emu.set_register(name, value)] for R0..R15 and PC *)
Definition set_register (i value : Z) (e : Emu) : Emu :=
  Emulator.set_cpu
    (Cpu.set_regs (Cpu.set_r i (Z.land value 0xFFFFFFFF)
                     (Cpu.regs (Emulator.cpu e))) (Emulator.cpu e)) e.

Definition set_pc (value : Z) (e : Emu) : Emu :=
  Emulator.set_cpu
    (Cpu.set_regs (Cpu.set_pc (Z.land value 0xFFFFFFFF)
                     (Cpu.regs (Emulator.cpu e))) (Emulator.cpu e)) e.

(** [emu.cpu.regs.ipl = value] *)
Definition set_ipl (value : Z) (e : Emu) : Emu :=
  Emulator.set_cpu
    (Cpu.set_regs (Cpu.set_ipl value (Cpu.regs (Emulator.cpu e)))
       (Emulator.cpu e)) e.

(** A method of [emu.interrupt] or [emu.timer] called from outside. *)
Definition on_interrupt
    (f : Interrupt.InterruptController → Interrupt.InterruptController)
    (e : Emu) : Emu :=
  Emulator.set_cpu
    (Emulator.update_periph
       (λ p, Emulator.set_interrupt (f (Emulator.interrupt p)) p)
       (Emulator.cpu e)) e.

Definition on_timer (f : Timer.TimerController → Timer.TimerController)
    (e : Emu) : Emu :=
  Emulator.set_cpu
    (Emulator.update_periph
       (λ p, Emulator.set_timer (f (Emulator.timer p)) p)
       (Emulator.cpu e)) e.

(** A program loaded at the start of the flash, PC on its first byte. *)
Definition with_program (bytes : list Z) (e : Emu) : Emu :=
  set_pc 0xFFE00000 (Emulator.load_binary_data bytes 0xFFE00000 e).

Definition regs_of (e : Emu) : Cpu.CPURegisters := Cpu.regs (Emulator.cpu e).
Definition periph_of (e : Emu) : Periph :=
  Memory.dev (Cpu.memory (Emulator.cpu e)).

(** The machines of tests/test_emulator.py. *)
Definition emu_test_mov : Emu :=
  with_program [0xFB; 0x01; 0x78; 0x56; 0x34; 0x12] emu0.

Definition emu_test_add : Emu :=
  with_program [0x48; 0x21]
    (set_register 2 0x50 (set_register 1 0x100 emu0)).

Definition emu_test_branch : Emu := with_program [0x38; 0x02; 0x00] emu0.

Definition emu_test_push : Emu :=
  with_program [0x7E; 0x01]
    (set_register 1 0xDEADBEEF (set_register 0 0x0003FFFC emu0)).

Definition emu_test_pop (pushed : Emu) : Emu :=
  set_pc 0xFFE00010
    (Emulator.load_binary_data [0x7F; 0x02] 0xFFE00010
       (set_register 2 0 pushed)).

Definition emu_test_breakpoint : Emu :=
  Emulator.add_breakpoint 0xFFE00001 (with_program [0x03; 0x03; 0x03] emu0).

(** ADD R2,R1 with R1 = 0xFFFFFFFF and R2 = 1. *)
Definition emu_add : Emu :=
  with_program [0x48; 0x21]
    (set_register 2 0x00000001 (set_register 1 0xFFFFFFFF emu0)).

(** Opcode 0xEF with rs = 1, rd = 2; R1 = 0x1000, R2 = 0 and the word
    0xDEADBEEF stored at 0x1000. *)
Definition emu_ef : Emu :=
  with_program [0xEF; 0x12]
    (set_register 1 0x00001000
       (Emulator.write_memory 0x00001000 0xDEADBEEF 4 emu0)).

(** CMT0's vector 28 enabled with priority 1 and requested; its handler,
    a NOP at 0xFFE00100, installed in the vector table; SP at the top of
    the RAM; a NOP at PC. *)
Definition emu_irq : Emu :=
  with_program [0x03; 0x03]
    (Emulator.load_binary_data [0x03] 0xFFE00100
    (set_register 0 0x0003FFFC
       (Emulator.write_memory (0xFFFFFF80 + 28 * 4) 0xFFE00100 4
          (on_interrupt (Interrupt.request 28)
             (on_interrupt (Interrupt.set_priority 28 1)
                (on_interrupt (Interrupt.enable 28) emu0)))))).

(** The same machine running at IPL 5. *)
Definition emu_irq_ipl5 : Emu := set_ipl 5 emu_irq.

(** WAIT followed by NOPs, stepped once: the engine is WAITING. *)
Definition emu_wait : Emu :=
  snd (step (with_program [0x76; 0x90; 0x03; 0x03] emu0)).

(** CMT0 with CMCOR = 0, started. *)
Definition timer_cmcor0 : Timer.TimerController :=
  Timer.update_unit 0 (Timer.start_channel 0)
    (Timer._write_cmcor 0 0 0 Timer.init).

(** Four NOPs with CMT0 started. *)
Definition emu_nops : Emu :=
  with_program [0x03; 0x03; 0x03; 0x03]
    (on_timer (Timer.update_unit 0 (Timer.start_channel 0)) emu0).

(** The demo set-up of [__main__]: reset vector written, registers
    dirty, then [emu.reset()]. *)
Definition emu_before_reset : Emu :=
  set_register 3 0x12345678
    (set_register 0 0x0003FFFC
       (Emulator.write_memory 0xFFFFFFFC 0xFFE00000 4 emu0)).

Definition reset : Emu → Emu := Emulator.reset (λ d, d) (λ d, d) (λ d, d).

(** A RAM byte and three flash bytes written. *)
Definition mem_loaded : Memory.MemoryController Periph :=
  Memory.mem
    (Memory.load_binary 0xFFE00000 [0x03; 0x03; 0x03]
       (Memory.write8 0x00001000 0x55 bus0)).

Definition flash_loaded : Memory.MemoryBlock :=
  Memory.set_data {[ 0 := 0x03; 1 := 0x03; 2 := 0x03 ]}
    (Memory.new_block "Flash" 0xFFE00000 0x00200000 Memory.FLASH false).

Definition ram_loaded : Memory.MemoryBlock :=
  Memory.set_data {[ 0x1000 := 0x55 ]}
    (Memory.new_block "RAM" 0x00000000 0x00040000 Memory.RAM false).

Definition ram_block : Memory.MemoryBlock :=
  Memory.new_block "RAM" 0x00000000 0x00040000 Memory.RAM false.

Definition peripheral_block : Memory.MemoryBlock :=
  Memory.new_block "Peripheral" 0x00080000 0x00080000 Memory.PERIPHERAL false.

(** The interrupt source stored under a vector. *)
Definition source_of (v : Z) (e : Emu) : option (Z * bool * bool) :=
  (λ s, (Interrupt.priority s, Interrupt.enabled s, Interrupt.pending s)) <$>
    dict_get v (Interrupt.sources (Emulator.interrupt (periph_of e))).

Definition cpu_of (e : Emu) : Cpu.RXCpu Periph := Emulator.cpu e.

Definition after_cpu_step (e : Emu) : Emu :=
  Emulator.set_cpu (snd (cpu_step (cpu_of e))) e.

Definition after_entry (v : Z) (e : Emu) : Emu :=
  Emulator.set_cpu
    (snd (Cpu._handle_interrupt Emulator.interrupt Emulator.set_interrupt v
            (cpu_of e))) e.

Definition channel0 (t : Timer.TimerController) : Timer.CMTChannel :=
  Timer._get_channel 0 0 t.

(** CMT0 about to wrap, interrupt enabled. *)
Definition channel_wrapping : Timer.CMTChannel :=
  Timer.set_interrupt_enabled true
    (Timer.set_cmcnt 0xFFFF (channel0 timer_cmcor0)).

Definition steps (n : nat) (e : Emu) : Emu := Nat.iter n (λ e, snd (step e)) e.

End Examples.

(** * Properties *)

(** ** Memory controller *)

Module Memory_facts.

Import Memory Memory_aux.

Section Facts.

Context {P : Type}.
Implicit Types (b : Bus P) (m : MemoryController P) (bs : list MemoryBlock).

Lemma mask32_mod a : mask32 a = a mod 2 ^ 32.
Proof. unfold mask32. change 0xFFFFFFFF with (Z.ones 32). by rewrite Z.land_ones. Qed.

Lemma mask32_apart a j k :
  0 ≤ j < 4 → 0 ≤ k < 4 → j ≠ k → mask32 (a + j) ≠ mask32 (a + k).
Proof.
  rewrite !mask32_mod. change (2 ^ 32) with 4294967296.
  intros Hj Hk Hne. Z.div_mod_to_equations. lia.
Qed.

Lemma log_access_blocks r m : blocks (log_access r m) = blocks m.
Proof. unfold log_access. by destruct (log_enabled m). Qed.

Lemma log_access_handlers r m :
  peripheral_handlers (log_access r m) = peripheral_handlers m.
Proof. unfold log_access. by destruct (log_enabled m). Qed.

Lemma find_block_insert bs i blk blk' y :
  bs !! i = Some blk →
  contains blk' y = contains blk y →
  _find_block y (<[i:=blk']> bs) =
    (λ e, (fst e, if decide (fst e = i) then blk' else snd e)) <$>
      _find_block y bs.
Proof.
  unfold _find_block. revert i.
  induction bs as [|x bs IH]; intros i Hi Hc; [done|].
  destruct i as [|i]; simpl in *.
  - injection Hi as ->. rewrite Hc.
    destruct (decide (Is_true (contains blk y))); simpl; [done|].
    destruct (list_find _ bs) as [[j z]|]; simpl; done.
  - destruct (decide (Is_true (contains x y))); simpl; [done|].
    rewrite (IH i Hi Hc).
    destruct (list_find _ bs) as [[j z]|]; simpl; [|done].
    repeat case_decide; simplify_eq; done.
Qed.

Lemma find_block_lookup y bs i blk :
  _find_block y bs = Some (i, blk) → bs !! i = Some blk.
Proof. unfold _find_block. by intros (? & _)%list_find_Some. Qed.

(** A read of an address without a binding returns the byte of the
    backing store and changes nothing but the access log. *)
Lemma read8_unbound a b :
  peripheral_handlers (mem b) !! mask32 a = None →
  fst (read8 a b) = peek (blocks (mem b)) (mask32 a) ∧
  blocks (mem (snd (read8 a b))) = blocks (mem b) ∧
  peripheral_handlers (mem (snd (read8 a b))) = peripheral_handlers (mem b) ∧
  dev (snd (read8 a b)) = dev b.
Proof.
  intros Hh. unfold read8, _check_peripheral, peek. fold (mask32 a).
  rewrite Hh. destruct (_find_block _ _) as [[i blk]|]; simpl;
    by rewrite log_access_blocks, log_access_handlers.
Qed.

(** A write to a plain writable address stores the low byte in the
    backing store: afterwards that address reads the byte, every other
    address reads what it read before, and the bindings, the components
    behind them and the extents of the blocks are as before. *)
Lemma write8_plain a v b :
  plain_writable b (mask32 a) →
  let b' := write8 a v b in
  (∀ y, peek (blocks (mem b')) y =
        if decide (y = mask32 a) then Z.land v 0xFF
        else peek (blocks (mem b)) y) ∧
  peripheral_handlers (mem b') = peripheral_handlers (mem b) ∧
  dev b' = dev b ∧
  (∀ y, plain_writable b y → plain_writable b' y).
Proof.
  intros (Hh & i & blk & Hf & Hro). pose proof (find_block_lookup _ _ _ _ Hf) as Hi.
  assert (Hin : Is_true (contains blk (mask32 a))).
  { unfold _find_block in Hf. by apply list_find_Some in Hf as (_ & ? & _). }
  simpl. unfold write8, _check_peripheral. fold (mask32 a).
  rewrite Hh, Hf, Hro. simpl.
  rewrite log_access_blocks, log_access_handlers. simpl.
  set (blk' := set_data _ blk).
  assert (Hfind : ∀ y, _find_block y (<[i:=blk']> (blocks (mem b))) =
            (λ e, (fst e, if decide (fst e = i) then blk' else snd e)) <$>
              _find_block y (blocks (mem b))).
  { intros y. by apply find_block_insert with (blk := blk). }
  split_and!; [|done|done|].
  - intros y. unfold peek. rewrite Hfind.
    destruct (decide (y = mask32 a)) as [->|Hne].
    + rewrite Hf. simpl. rewrite decide_True by done. simpl.
      by rewrite lookup_insert_eq.
    + destruct (_find_block y _) as [[j z]|] eqn:Hy; simpl; [|done].
      destruct (decide (j = i)) as [->|]; [|done].
      apply find_block_lookup in Hy. rewrite Hi in Hy. injection Hy as <-.
      simpl. rewrite lookup_insert_ne; [done|lia].
  - intros y (Hhy & j & z & Hy & Hz). unfold plain_writable. simpl.
    rewrite log_access_blocks, log_access_handlers. simpl.
    split; [done|]. rewrite Hfind, Hy. simpl.
    eexists j, _. split; [done|].
    destruct (decide (j = i)) as [->|]; [|done].
    apply find_block_lookup in Hy. rewrite Hi in Hy. by injection Hy as <-.
Qed.


Lemma plain_range_0 b a w : 0 < w → plain_range b a w → plain_writable b (mask32 a).
Proof. intros Hw H. specialize (H 0). rewrite Z.add_0_r in H. apply H. lia. Qed.

Lemma stored_nil b a : stored b b a [].
Proof. by split. Qed.

Lemma stored_snoc b b' a bytes x :
  Z.of_nat (length bytes) < 4 →
  stored b b' a bytes →
  plain_writable b (mask32 (a + Z.of_nat (length bytes))) →
  stored b (write8 (a + Z.of_nat (length bytes)) x b') a (bytes ++ [x]).
Proof.
  intros Hlen [Hp Hh Hpl] Hw.
  destruct (write8_plain (a + Z.of_nat (length bytes)) x b' (Hpl _ Hw))
    as (Hp' & Hh' & _ & Hpl').
  split.
  - intros k y Hk. rewrite Hp'.
    apply lookup_app_Some in Hk as [Hk|[Hge Hk]].
    + pose proof (lookup_lt_Some _ _ _ Hk) as Hlt.
      rewrite decide_False; [by apply Hp|].
      apply mask32_apart; lia.
    + destruct (k - length bytes)%nat as [|n] eqn:Hn; simplify_eq/=.
      assert (k = length bytes) as -> by lia.
      by rewrite decide_True.
  - by rewrite Hh'.
  - auto.
Qed.

Lemma read8_after_store b b' a bytes k x c :
  c = a + Z.of_nat k →
  stored b b' a bytes → bytes !! k = Some x →
  plain_writable b (mask32 c) →
  fst (read8 c b') = Z.land x 0xFF.
Proof.
  intros -> [Hp Hh Hpl] Hk Hw.
  destruct (read8_unbound (a + Z.of_nat k) b') as (-> & _).
  - rewrite Hh. apply Hw.
  - by apply Hp.
Qed.

Lemma read8_keeps_store b b' a bytes c :
  stored b b' a bytes → plain_writable b (mask32 c) →
  stored b (snd (read8 c b')) a bytes.
Proof.
  intros [Hp Hh Hpl] Hw.
  destruct (read8_unbound c b') as (_ & Hb & Hh' & _).
  { rewrite Hh. apply Hw. }
  split.
  - intros k x Hk. rewrite Hb. by apply Hp.
  - by rewrite Hh'.
  - intros y Hy. destruct (Hpl y Hy) as (? & Hex). split.
    + by rewrite Hh'.
    + by rewrite Hb.
Qed.

Lemma high_bits_zero v n : 0 ≤ v < 2 ^ n → ∀ i, n ≤ i → Z.testbit v i = false.
Proof.
  intros Hv i Hi. destruct (decide (v = 0)) as [->|Hne].
  - apply Z.bits_0.
  - apply Z.bits_above_log2; [lia|].
    assert (0 ≤ n).
    { destruct (decide (0 ≤ n)); [done|]. rewrite Z.pow_neg_r in Hv; lia. }
    assert (Z.log2 v < n) by (apply Z.log2_lt_pow2; lia). lia.
Qed.

Lemma bytes8 v : 0 ≤ v < 2 ^ 8 → Z.land v 0xFF = v.
Proof.
  intros Hv. pose proof (high_bits_zero v 8 Hv) as Hhi.
  change 0xFF with (Z.ones 8). Z.bitblast.
  rewrite Hhi by lia. reflexivity.
Qed.

Lemma bytes16 v : 0 ≤ v < 2 ^ 16 →
  Z.lor (Z.shiftl (Z.land (Z.land (Z.shiftr v 8) 0xFF) 0xFF) 8)
        (Z.land (Z.land v 0xFF) 0xFF) = v.
Proof.
  intros Hv. pose proof (high_bits_zero v 16 Hv) as Hhi.
  change 0xFF with (Z.ones 8). Z.bitblast.
  all: try (rewrite Hhi by lia; reflexivity).
Qed.

Lemma bytes32 v : 0 ≤ v < 2 ^ 32 →
  Z.lor (Z.lor (Z.lor
     (Z.shiftl (Z.land (Z.land (Z.shiftr v 24) 0xFF) 0xFF) 24)
     (Z.shiftl (Z.land (Z.land (Z.shiftr v 16) 0xFF) 0xFF) 16))
     (Z.shiftl (Z.land (Z.land (Z.shiftr v 8) 0xFF) 0xFF) 8))
     (Z.land (Z.land v 0xFF) 0xFF) = v.
Proof.
  intros Hv. pose proof (high_bits_zero v 32 Hv) as Hhi.
  change 0xFF with (Z.ones 8). Z.bitblast.
  all: try (rewrite Hhi by lia; reflexivity).
Qed.

Ltac small_nats :=
  change (Z.of_nat 0%nat) with 0 in *; change (Z.of_nat 1%nat) with 1 in *;
  change (Z.of_nat 2%nat) with 2 in *; change (Z.of_nat 3%nat) with 3 in *;
  rewrite ?Z.add_0_r in *.

Lemma write_read8 b a v :
  plain_range b a 1 → fst (read8 a (write8 a v b)) = Z.land v 0xFF.
Proof.
  intros Hr. pose proof (plain_range_0 b a 1 ltac:(lia) Hr) as H0.
  destruct (write8_plain a v b H0) as (Hp & Hh & _ & _).
  destruct (read8_unbound a (write8 a v b)) as (-> & _).
  - rewrite Hh. apply H0.
  - rewrite Hp. by rewrite decide_True.
Qed.

Lemma write_read16 b a v :
  plain_range b a 2 →
  fst (read16 a (write16 a v b)) =
    Z.lor (Z.shiftl (Z.land (Z.land (Z.shiftr v 8) 0xFF) 0xFF) 8)
          (Z.land (Z.land v 0xFF) 0xFF).
Proof.
  intros Hr.
  assert (H0 : plain_writable b (mask32 (a + Z.of_nat 0%nat))) by (apply Hr; lia).
  assert (H1 : plain_writable b (mask32 (a + Z.of_nat 1%nat))) by (apply Hr; lia).
  pose proof (stored_nil b a) as S.
  apply (stored_snoc b b a [] (Z.land v 0xFF)) in S; [|simpl; lia|done].
  apply (stored_snoc _ _ _ _ (Z.land (Z.shiftr v 8) 0xFF)) in S;
    [|simpl; lia|done].
  simpl in S. small_nats.
  unfold read16, write16.
  set (b2 := write8 (a + 1) _ _) in *.
  pose proof (read8_after_store _ _ a _ 0%nat _ a ltac:(small_nats; lia) S eq_refl H0) as E0.
  apply (read8_keeps_store _ _ _ _ a) in S; [|done].
  destruct (read8 a b2) as [low b3]. simpl in *. subst low.
  pose proof (read8_after_store _ _ a _ 1%nat _ (a + 1) ltac:(small_nats; lia) S eq_refl H1)
    as E1.
  destruct (read8 (a + 1) b3) as [high b4]. simpl in *. by subst high.
Qed.

Lemma write_read32 b a v :
  plain_range b a 4 →
  fst (read32 a (write32 a v b)) =
    Z.lor (Z.lor (Z.lor
      (Z.shiftl (Z.land (Z.land (Z.shiftr v 24) 0xFF) 0xFF) 24)
      (Z.shiftl (Z.land (Z.land (Z.shiftr v 16) 0xFF) 0xFF) 16))
      (Z.shiftl (Z.land (Z.land (Z.shiftr v 8) 0xFF) 0xFF) 8))
      (Z.land (Z.land v 0xFF) 0xFF).
Proof.
  intros Hr.
  assert (H0 : plain_writable b (mask32 (a + Z.of_nat 0%nat))) by (apply Hr; lia).
  assert (H1 : plain_writable b (mask32 (a + Z.of_nat 1%nat))) by (apply Hr; lia).
  assert (H2 : plain_writable b (mask32 (a + Z.of_nat 2%nat))) by (apply Hr; lia).
  assert (H3 : plain_writable b (mask32 (a + Z.of_nat 3%nat))) by (apply Hr; lia).
  pose proof (stored_nil b a) as S.
  apply (stored_snoc b b a [] (Z.land v 0xFF)) in S; [|simpl; lia|done].
  apply (stored_snoc _ _ _ _ (Z.land (Z.shiftr v 8) 0xFF)) in S;
    [|simpl; lia|done].
  apply (stored_snoc _ _ _ _ (Z.land (Z.shiftr v 16) 0xFF)) in S;
    [|simpl; lia|done].
  apply (stored_snoc _ _ _ _ (Z.land (Z.shiftr v 24) 0xFF)) in S;
    [|simpl; lia|done].
  simpl in S. small_nats.
  unfold read32, write32.
  set (b4 := write8 (a + 3) _ _) in *.
  pose proof (read8_after_store _ _ a _ 0%nat _ a ltac:(small_nats; lia) S eq_refl H0) as E0.
  apply (read8_keeps_store _ _ _ _ a) in S; [|done].
  destruct (read8 a b4) as [x0 c0]. simpl in *. subst x0.
  pose proof (read8_after_store _ _ a _ 1%nat _ (a + 1) ltac:(small_nats; lia) S eq_refl H1)
    as E1.
  apply (read8_keeps_store _ _ _ _ (a + 1)) in S; [|done].
  destruct (read8 (a + 1) c0) as [x1 c1]. simpl in *. subst x1.
  pose proof (read8_after_store _ _ a _ 2%nat _ (a + 2) ltac:(small_nats; lia) S eq_refl H2)
    as E2.
  apply (read8_keeps_store _ _ _ _ (a + 2)) in S; [|done].
  destruct (read8 (a + 2) c1) as [x2 c2]. simpl in *. subst x2.
  pose proof (read8_after_store _ _ a _ 3%nat _ (a + 3) ltac:(small_nats; lia) S eq_refl H3)
    as E3.
  destruct (read8 (a + 3) c2) as [x3 c3]. simpl in *. by subst x3.
Qed.

(** C6, as amended.  A value written through the memory controller is
    read back unchanged, for each of the three widths, when every byte
    address of the access is plain writable: it has no peripheral binding
    and the first block that contains it is not read-only. *)
Theorem write_read_roundtrip b a v :
  (plain_range b a 1 → 0 ≤ v < 2 ^ 8 →
     fst (read8 a (write8 a v b)) = v) ∧
  (plain_range b a 2 → 0 ≤ v < 2 ^ 16 →
     fst (read16 a (write16 a v b)) = v) ∧
  (plain_range b a 4 → 0 ≤ v < 2 ^ 32 →
     fst (read32 a (write32 a v b)) = v).
Proof.
  split_and!; intros Hr Hv.
  - rewrite write_read8 by done. by apply bytes8.
  - rewrite write_read16 by done. by apply bytes16.
  - rewrite write_read32 by done. by apply bytes32.
Qed.

Lemma reset_handlers m : peripheral_handlers (reset m) = peripheral_handlers m.
Proof. reflexivity. Qed.

(** C10.  [reset] replaces the buffer of every RAM block by a zeroed one
    and nothing else: a block of any other kind is left exactly as it
    was, the block list keeps its length and order, and the table of
    peripheral handlers is the same. *)
Theorem reset_clears_only_ram m i blk :
  blocks m !! i = Some blk →
  (region_type blk ≠ RAM → blocks (reset m) !! i = Some blk) ∧
  (region_type blk = RAM →
     blocks (reset m) !! i = Some (set_data (bytearray (size blk)) blk)) ∧
  length (blocks (reset m)) = length (blocks m) ∧
  peripheral_handlers (reset m) = peripheral_handlers m.
Proof.
  intros Hi. unfold reset. cbn [blocks set_blocks peripheral_handlers].
  rewrite list_lookup_fmap, Hi, length_fmap. unfold reset_block.
  split_and!; [intros Hne|intros Heq|done|done]; simpl.
  - by rewrite decide_False.
  - by rewrite decide_True.
Qed.

End Facts.

End Memory_facts.

(** ** CPU engine *)

Module Cpu_facts.

Import Cpu Cpu_aux.

Section Facts.

Context {P : Type} (get_ic : P → Interrupt.InterruptController)
  (put_ic : Interrupt.InterruptController → P → P).

Implicit Types (c : RXCpu P) (g : CPURegisters).

Local Abbreviation total := (@Cpu_aux.total P _).
Local Abbreviation keeps := (@Cpu_aux.keeps P _).

(** *** Sequencing *)

Lemma bind_done {A B} (m : M P A) (k : A → M P B) c a c' :
  m c = (Done a, c') → bind m k c = k a c'.
Proof. unfold bind. by intros ->. Qed.

Lemma bind_raise {A B} (m : M P A) (k : A → M P B) c e c' :
  m c = (Raise e, c') → bind m k c = (Raise e, c').
Proof. unfold bind. by intros ->. Qed.

Lemma bind_gets {A B} (f : RXCpu P → A) (k : A → M P B) c :
  bind (gets f) k c = k (f c) c.
Proof. reflexivity. Qed.

Lemma bind_modify {B} (f : RXCpu P → RXCpu P) (k : unit → M P B) c :
  bind (modify f) k c = k tt (f c).
Proof. reflexivity. Qed.

Lemma total_ret {A} (a : A) : total (ret a).
Proof. intros c. by exists a. Qed.

Lemma total_bind {A B} (m : M P A) (k : A → M P B) :
  total m → (∀ a, total (k a)) → total (bind m k).
Proof.
  intros Hm Hk c. destruct (Hm c) as [a Ha]. unfold bind.
  destruct (m c) as [[a'|e] c']; simpl in Ha; [|done].
  apply Hk.
Qed.

Lemma total_gets {A} (f : RXCpu P → A) : total (gets f).
Proof. intros c. by eexists. Qed.

Lemma total_modify f : total (modify (P:=P) f).
Proof. intros c. by eexists. Qed.

Lemma total_modify_regs f : total (modify_regs (P:=P) f).
Proof. apply total_modify. Qed.

Lemma total_mem_read rd a : total (mem_read (P:=P) rd a).
Proof. intros c. unfold mem_read. destruct (rd a _). by eexists. Qed.

Lemma total_mem_write wr a v : total (mem_write (P:=P) wr a v).
Proof. apply total_modify. Qed.

Lemma total_with_ic f : total (with_ic get_ic put_ic f).
Proof. apply total_modify. Qed.

Lemma advances_refl c : advances c c.
Proof. split; [lia|by left]. Qed.

Lemma advances_trans c1 c2 c3 :
  advances c1 c2 → advances c2 c3 → advances c1 c3.
Proof.
  intros [H1 S1] [H2 S2]. split; [lia|].
  destruct S2 as [->|S2]; [done|by right].
Qed.

Lemma keeps_ret {A} (a : A) : keeps (ret a).
Proof. intros c. apply advances_refl. Qed.

Lemma keeps_bind {A B} (m : M P A) (k : A → M P B) :
  keeps m → (∀ a, keeps (k a)) → keeps (bind m k).
Proof.
  intros Hm Hk c. specialize (Hm c). unfold bind.
  destruct (m c) as [[a|e] c']; simpl in *; [|done].
  eapply advances_trans; [done|apply Hk].
Qed.

Lemma keeps_raise {A} e : keeps (raise (A:=A) (P:=P) e).
Proof. intros c. apply advances_refl. Qed.

Lemma keeps_gets {A} (f : RXCpu P → A) : keeps (gets f).
Proof. intros c. apply advances_refl. Qed.

Lemma keeps_modify_regs f : keeps (modify_regs (P:=P) f).
Proof. intros c. split; simpl; [lia|by left]. Qed.

Lemma keeps_mem_read rd a : keeps (mem_read (P:=P) rd a).
Proof.
  intros c. unfold mem_read. destruct (rd a _). split; simpl; [lia|by left].
Qed.

Lemma keeps_mem_write wr a v : keeps (mem_write (P:=P) wr a v).
Proof. intros c. split; simpl; [lia|by left]. Qed.

Lemma keeps_with_ic f : keeps (with_ic get_ic put_ic f).
Proof. intros c. split; simpl; [lia|by left]. Qed.

Lemma keeps_cycles n :
  0 ≤ n → keeps (modify (P:=P) (λ c, set_cycle_count (cycle_count c + n) c)).
Proof. intros Hn c. split; simpl; [lia|by left]. Qed.

Lemma keeps_waiting : keeps (modify (P:=P) (set_state WAITING)).
Proof. intros c. split; simpl; [lia|by right; left]. Qed.

Lemma keeps_exception : keeps (modify (P:=P) (set_state EXCEPTION)).
Proof. intros c. split; simpl; [lia|by right; right]. Qed.

Create HintDb rx_keeps.

#[local] Hint Resolve keeps_ret keeps_raise keeps_gets keeps_modify_regs
  keeps_mem_read keeps_mem_write keeps_with_ic keeps_waiting
  keeps_exception : rx_keeps.

Ltac keeps_step :=
  first
    [ apply keeps_bind; [|intros ?]
    | apply keeps_cycles; lia
    | solve [auto with rx_keeps]
    | match goal with
      | |- keeps (if ?b then _ else _) => destruct b
      | |- keeps (match ?x with Some _ => _ | None => _ end) => destruct x
      end ].

Ltac keeps_auto := repeat keeps_step.

Lemma keeps_fetch : keeps (_fetch (P:=P)).
Proof. unfold _fetch. keeps_auto. Qed.

Lemma keeps_fetch16 : keeps (_fetch16 (P:=P)).
Proof. unfold _fetch16. keeps_auto. Qed.

Lemma keeps_fetch32 : keeps (_fetch32 (P:=P)).
Proof. unfold _fetch32. keeps_auto. Qed.

Lemma keeps_undefined {A} opcode :
  keeps (_undefined_instruction (A:=A) (P:=P) opcode).
Proof. unfold _undefined_instruction. keeps_auto. Qed.

#[local] Hint Resolve keeps_fetch keeps_fetch16 keeps_fetch32
  keeps_undefined : rx_keeps.

Lemma keeps_call h : keeps (call (P:=P) h).
Proof.
  destruct h; unfold call;
    unfold _op_nop, _op_mov_imm32, _op_mov_reg, _op_add_imm4, _op_add_reg,
      _op_sub_reg, _op_cmp_imm4, _op_and_reg, _op_or_reg, _op_xor_reg,
      _op_push, _op_pop, _op_bsr_w, _op_bra_w, _op_beq, _op_bne, _op_rts,
      _op_mov_b_store, _op_mov_b_load, _op_mov_l_store, _op_mov_l_load,
      _op_fd_prefix, _op_fc_prefix, _op_76_prefix, op_psw;
    keeps_auto.
Qed.

Lemma keeps_execute opcode : keeps (_execute (P:=P) opcode).
Proof.
  unfold _execute. destruct (_ !! opcode); auto using keeps_call with rx_keeps.
Qed.

Lemma keeps_handle_interrupt v : keeps (_handle_interrupt get_ic put_ic v).
Proof. unfold _handle_interrupt. keeps_auto. Qed.

Lemma keeps_gate : keeps (interrupt_gate get_ic put_ic).
Proof.
  unfold interrupt_gate. apply keeps_bind; [auto with rx_keeps|]. intros c.
  destruct (get_flag _ _); [|auto with rx_keeps].
  destruct (Interrupt.get_pending_interrupt _); [|auto with rx_keeps].
  destruct (_ >? _); auto using keeps_handle_interrupt with rx_keeps.
Qed.

Lemma total_handle_interrupt v : total (_handle_interrupt get_ic put_ic v).
Proof.
  unfold _handle_interrupt.
  repeat first [ apply total_bind; [|intros ?] | apply total_gets
               | apply total_modify_regs | apply total_mem_read
               | apply total_mem_write | apply total_with_ic ].
Qed.

Lemma total_gate : total (interrupt_gate get_ic put_ic).
Proof.
  unfold interrupt_gate. apply total_bind; [apply total_gets|]. intros c.
  destruct (get_flag _ _); [|apply total_ret].
  destruct (Interrupt.get_pending_interrupt _); [|apply total_ret].
  destruct (_ >? _); [apply total_handle_interrupt|apply total_ret].
Qed.

(** The opcode fetch always succeeds and costs one cycle. *)
Lemma fetch_cycle c :
  ∃ opcode c', _fetch c = (Done opcode, c') ∧
    cycle_count c' = cycle_count c + 1 ∧ state c' = state c.
Proof.
  unfold _fetch, bind, gets, mem_read, modify_regs, modify, ret.
  destruct (Memory.read8 _ _) as [v b]. simpl. by eexists _, _.
Qed.


(** [step] behind the breakpoint check, as the three stages it runs. *)
Lemma step_stages c :
  pc (regs c) ∉ breakpoints c →
  ∃ c1 opcode c2,
    fst (interrupt_gate get_ic put_ic c) = Done tt ∧
    snd (interrupt_gate get_ic put_ic c) = c1 ∧
    _fetch c1 = (Done opcode, c2) ∧
    step get_ic put_ic c =
      match _execute opcode c2 with
      | (Done _, c3) =>
          (Done (bool_decide (state c3 = RUNNING)),
           set_instruction_count (instruction_count c3 + 1) c3)
      | (Raise e, c3) => (Raise e, c3)
      end.
Proof.
  intros Hbp. destruct (total_gate c) as [[] Hg].
  destruct (fetch_cycle (snd (interrupt_gate get_ic put_ic c)))
    as (opcode & c2 & Hf & _).
  exists (snd (interrupt_gate get_ic put_ic c)), opcode, c2.
  split_and!; [done..|].
  unfold step. rewrite bind_gets. unfold id.
  rewrite decide_False by done.
  destruct (interrupt_gate get_ic put_ic c) as [r c1] eqn:Hgate.
  cbn [fst snd] in *. subst r.
  rewrite (bind_done _ _ _ _ _ Hgate), (bind_done _ _ _ _ _ Hf).
  unfold bind at 1. destruct (_execute opcode c2) as [[[]|e] c3]; [|done].
  rewrite bind_modify. reflexivity.
Qed.


(** C3, as amended.  [step] never looks at the engine state: in the
    WAITING state, when PC is not a breakpoint, it runs the interrupt
    gate and then fetches and executes the instruction at PC like in any
    other state, so the cycle counter grows by at least one.  Neither
    the instruction nor an accepted interrupt puts the engine back to
    RUNNING: after the step the state is WAITING or EXCEPTION, and
    [step] returns [False] or raises. *)
Theorem step_in_waiting c :
  state c = WAITING →
  pc (regs c) ∉ breakpoints c →
  cycle_count c + 1 ≤ cycle_count (snd (step get_ic put_ic c)) ∧
  (state (snd (step get_ic put_ic c)) = WAITING ∨
   state (snd (step get_ic put_ic c)) = EXCEPTION) ∧
  (fst (step get_ic put_ic c) = Done false ∨
   ∃ e, fst (step get_ic put_ic c) = Raise e).
Proof.
  intros Hw Hbp.
  destruct (step_stages c Hbp) as (c1 & opcode & c2 & _ & Hc1 & Hf & ->).
  pose proof (keeps_gate c) as [Hcy1 Hst1]. rewrite Hc1 in Hcy1, Hst1.
  destruct (fetch_cycle c1) as (opcode' & c2' & Hf' & Hcy2 & Hst2).
  rewrite Hf in Hf'. injection Hf' as <- <-.
  pose proof (keeps_execute opcode c2) as [Hcy3 Hst3].
  destruct (_execute opcode c2) as [[[]|e] c3]; cbn [fst snd] in *.
  - assert (Hs : state c3 = WAITING ∨ state c3 = EXCEPTION).
    { rewrite Hst2 in Hst3. rewrite Hw in Hst1.
      destruct Hst3 as [->|[->| ->]]; [|by left|by right].
      destruct Hst1 as [->|[->| ->]]; [by left|by left|by right]. }
    split_and!; [simpl; lia|done|left].
    f_equal. rewrite bool_decide_eq_false. by destruct Hs as [->| ->].
  - split_and!; [lia| |right; by exists e].
    rewrite Hst2 in Hst3. rewrite Hw in Hst1.
    destruct Hst3 as [->|[->| ->]]; [|by left|by right].
    destruct Hst1 as [->|[->| ->]]; [by left|by left|by right].
Qed.

(** *** Flags *)

Lemma land_mask_le x : Z.land x 0xFFFFFFFF ≤ 0xFFFFFFFF.
Proof.
  change 0xFFFFFFFF with (Z.ones 32). rewrite Z.land_ones by lia.
  change (Z.ones 32) with (2 ^ 32 - 1).
  pose proof (Z.mod_pos_bound x (2 ^ 32)). lia.
Qed.

Lemma get_flag_C_set_flag_O v g :
  get_flag PSW_C (set_flag PSW_O v g) = get_flag PSW_C g.
Proof.
  unfold get_flag, set_flag, PSW_C, PSW_O. destruct v; cbn [psw set_psw].
  - replace (Z.land (Z.lor (psw g) 8) 1) with (Z.land (psw g) 1); [done|].
    change 8 with (Z.shiftl (Z.ones 1) 3). change 1 with (Z.ones 1).
    Z.bitblast.
  - replace (Z.land (Z.land (psw g) (Z.lnot 8)) 1) with (Z.land (psw g) 1);
      [done|].
    change 8 with (Z.shiftl (Z.ones 1) 3). change 1 with (Z.ones 1).
    Z.bitblast.
Qed.

Lemma get_flag_set_flag_false flag g :
  get_flag flag (set_flag flag false g) = false.
Proof.
  unfold get_flag, set_flag. cbn [psw set_psw].
  replace (Z.land (Z.land (psw g) (Z.lnot flag)) flag) with 0; [done|].
  symmetry. Z.bitblast.
Qed.

(** Both ADD handlers hand the masked sum to [update_flags_arithmetic],
    whose carry test [result > mask] can then never succeed: an addition
    always leaves C clear. *)
Lemma add_never_sets_carry op1 op2 op2' g :
  get_flag PSW_C
    (update_flags_arithmetic (Z.land (op1 + op2) 0xFFFFFFFF) op1 op2'
       false 32 g) = false.
Proof.
  unfold update_flags_arithmetic. cbn [Z.shiftl Z.sub].
  change (Z.shiftl 1 32 - 1) with 0xFFFFFFFF.
  rewrite get_flag_C_set_flag_O.
  replace (Z.land (op1 + op2) 0xFFFFFFFF >? 0xFFFFFFFF) with false.
  - apply get_flag_set_flag_false.
  - symmetry. rewrite Z.gtb_ltb. apply Z.ltb_ge, land_mask_le.
Qed.


(** *** The interrupt gate and interrupt entry *)

(** What the gate decides on: the vector that the controller returns is
    compared with the IPL. *)
Lemma gate_decision c v :
  get_flag PSW_I (regs c) = true →
  Interrupt.get_pending_interrupt (get_ic (Memory.dev (memory c))) = Some v →
  interrupt_gate get_ic put_ic c =
    if v >? ipl (regs c) then _handle_interrupt get_ic put_ic v c
    else (Done tt, c).
Proof.
  intros HI Hp. unfold interrupt_gate. rewrite bind_gets. unfold id.
  rewrite HI, Hp. by destruct (_ >? _).
Qed.

Lemma gate_closed c :
  get_flag PSW_I (regs c) = false →
  interrupt_gate get_ic put_ic c = (Done tt, c).
Proof.
  intros HI. unfold interrupt_gate. rewrite bind_gets. unfold id.
  by rewrite HI.
Qed.

Lemma ipl_set_ipl v g : ipl (set_ipl v g) = Z.land v 0x0F.
Proof.
  unfold ipl, set_ipl, IPL_MASK. cbn [psw set_psw].
  change 0x0F000000 with (Z.shiftl (Z.ones 4) 24).
  change 0x0F with (Z.ones 4). Z.bitblast.
Qed.

(** Interrupt entry leaves the low nibble of the vector number in the
    IPL field, whatever the priority of the source. *)
Lemma entry_ipl_is_vector c v :
  ipl (regs (snd (_handle_interrupt get_ic put_ic v c))) = Z.land v 0x0F.
Proof.
  unfold _handle_interrupt, mem_write, with_ic, modify_regs, bind, modify,
    gets, mem_read.
  cbn [regs set_regs memory set_memory fst snd].
  destruct (Memory.read32 (P:=P) _ _) as [handler b].
  cbn [regs set_regs memory set_memory fst snd].
  match goal with
  | |- context [set_ipl v ?g] => rewrite <- (ipl_set_ipl v g)
  end.
  reflexivity.
Qed.

(** The handler that [_execute] runs for the first byte 0xEF. *)
Lemma execute_EF : _execute (P:=P) 0xEF = _op_mov_l_load.
Proof.
  unfold _execute.
  replace (_build_instruction_table !! 0xEF) with (Some Op_mov_l_load)
    by (vm_compute; reflexivity).
  reflexivity.
Qed.

End Facts.

End Cpu_facts.

(** ** Timer *)

Module Timer_facts.

Import Timer Timer_aux.

(** The fuel given to the loop is enough: the loop leaves through its
    test, after one pass for every whole [divider] in the prescale
    counter, and keeps the remainder. *)
Lemma tick_loop_exit fuel d p c ic :
  0 < d → 0 ≤ p → p / d ≤ Z.of_nat fuel →
  tick_loop fuel d p c ic =
    (p mod d, (increments (Z.to_nat (p / d)) c ic).1,
     (increments (Z.to_nat (p / d)) c ic).2).
Proof.
  intros Hd. revert p c ic.
  induction fuel as [|fuel IH]; intros p c ic Hp Hfuel.
  - assert (p / d = 0) as Hq by (pose proof (Z.div_pos p d); lia).
    rewrite Hq. simpl. f_equal. f_equal.
    apply Z.div_small_iff in Hq; [|lia].
    symmetry. apply Z.mod_small. lia.
  - simpl. destruct (p >=? d) eqn:Hge.
    + apply Z.geb_le in Hge.
      assert (Hq : (p - d) / d = p / d - 1).
      { replace (p - d) with (p + (-1) * d) by lia.
        rewrite Z.div_add by lia. lia. }
      assert (Hm : (p - d) mod d = p mod d).
      { replace (p - d) with (p + (-1) * d) by lia.
        by rewrite Z.mod_add by lia. }
      assert (1 ≤ p / d).
      { apply Z.div_le_lower_bound; lia. }
      destruct (increment c ic) as [c' ic'] eqn:Hinc.
      rewrite IH by lia. rewrite Hq, Hm.
      replace (Z.to_nat (p / d)) with (S (Z.to_nat (p / d - 1))) by lia.
      simpl. by rewrite Hinc.
    + rewrite Z.geb_leb in Hge. apply Z.leb_gt in Hge.
      rewrite Z.div_small, Z.mod_small by lia. done.
Qed.

Lemma divider_value_pos c : 8 ≤ divider_value c.
Proof.
  unfold divider_value, clock_divider.
  repeat (destruct (_ =? _)); lia.
Qed.

(** The fuel that [tick_channel] passes, the prescale counter itself, is
    always enough. *)
Lemma tick_loop_fuel p c ic :
  0 ≤ p →
  tick_loop (Z.to_nat p) (divider_value c) p c ic =
    (p mod divider_value c,
     (increments (Z.to_nat (p / divider_value c)) c ic).1,
     (increments (Z.to_nat (p / divider_value c)) c ic).2).
Proof.
  intros Hp. pose proof (divider_value_pos c) as Hd.
  apply tick_loop_exit; [lia..|].
  rewrite Z2Nat.id by done.
  apply Z.div_le_upper_bound; nia.
Qed.

(** C7, as amended.  With CMCOR = 0 an increment is a compare match only
    when CMCNT wraps from 0xFFFF to 0: then the flag is set, CMCNT is 0
    and the interrupt is requested when enabled.  Any other increment
    stores CMCNT + 1 and is no match: flag and interrupt controller are
    left as they were. *)
Theorem increment_cmcor_zero c ic :
  cmcor c = 0 →
  0 ≤ cmcnt c ≤ 0xFFFF →
  (cmcnt c = 0xFFFF →
     cmcnt (increment c ic).1 = 0 ∧
     compare_match_flag (increment c ic).1 = true ∧
     (increment c ic).2 =
       if interrupt_enabled c
       then Interrupt.request (interrupt_vector c) ic else ic) ∧
  (cmcnt c ≠ 0xFFFF →
     cmcnt (increment c ic).1 = cmcnt c + 1 ∧
     compare_match_flag (increment c ic).1 = compare_match_flag c ∧
     (increment c ic).2 = ic).
Proof.
  intros Hcor Hrange. unfold increment. cbn [cmcnt cmcor set_cmcnt].
  rewrite Hcor. change 0xFFFF with (Z.ones 16).
  rewrite Z.land_ones by lia. change (2 ^ 16) with 65536.
  change (Z.ones 16) with 65535 in *.
  split; intros Hc.
  - rewrite Hc. simpl. done.
  - rewrite Z.mod_small by lia.
    destruct (cmcnt c + 1 =? 0) eqn:E; [lia|]. done.
Qed.

End Timer_facts.

(** ** Integration façade *)

Module Emulator_facts.

Import Emulator Emulator_aux.

Section Facts.

Context {D : Type} (gpio_reset board_reset clock_reset : D → D).

Implicit Types (e : RX65NEmulator D).

(** The amount handed to the clock, and through it to the timer, is the
    cycle counter of the CPU after the instruction. *)
Lemma step_ticks_cycle_count e r c :
  Cpu.pc (Cpu.regs (cpu e)) ∉ execution_breakpoints e →
  Cpu.step interrupt set_interrupt (cpu e) = (Cpu.Done r, c) →
  step e =
    (r, set_cpu (update_periph (clock_tick (Cpu.cycle_count c)) c) e).
Proof.
  intros Hbp Hs. unfold step. rewrite decide_False by done. by rewrite Hs.
Qed.

(** C9, as amended.  After [reset], PC is the word read at the reset
    vector 0xFFFFFFFC, SP is 0x00020000, the default that [RXCpu.reset]
    stores, PSW is exactly the I bit, R1..R15 are zero, and the engine is
    STOPPED with its counters cleared. *)
Theorem reset_registers e :
  let e' := reset gpio_reset board_reset clock_reset e in
  Cpu.pc (Cpu.regs (cpu e')) =
    fst (Memory.read32 0xFFFFFFFC (bus_after_memory_reset e)) ∧
  Cpu.sp (Cpu.regs (cpu e')) = 0x00020000 ∧
  Cpu.psw (Cpu.regs (cpu e')) = Cpu.PSW_I ∧
  (∀ i, 1 ≤ i ≤ 15 → Cpu.get_r i (Cpu.regs (cpu e')) = 0) ∧
  Cpu.state (cpu e') = Cpu.STOPPED ∧
  Cpu.cycle_count (cpu e') = 0 ∧
  Cpu.instruction_count (cpu e') = 0.
Proof.
  cbv zeta. unfold reset, _on_reset, Cpu.reset.
  unfold Cpu.bind, Cpu.modify_regs, Cpu.modify, Cpu.mem_read.
  cbn [Cpu.memory Cpu.set_instruction_count Cpu.set_cycle_count
       Cpu.set_state Cpu.set_regs update_mem Cpu.set_memory].
  fold (bus_after_memory_reset e).
  destruct (Memory.read32 _ (bus_after_memory_reset e)) as [rv b].
  split_and!; try reflexivity.
  intros i Hi. unfold Cpu.get_r. simpl.
  destruct (Z.to_nat i) as [|n] eqn:Hn; [lia|]. simpl.
  assert (n < 15)%nat by lia.
  do 15 (destruct n as [|n]; [done|]). lia.
Qed.

End Facts.

End Emulator_facts.

(** ** The concrete machines run *)

Module Runs.

Import Examples.

(** *** The repository's own tests, run on the embedding *)

Example test_mov_instruction :
  Cpu.get_r 1 (regs_of (steps 1 emu_test_mov)) = 0x12345678 ∧
  Cpu.pc (regs_of (steps 1 emu_test_mov)) = 0xFFE00006.
Proof. vm_compute. done. Qed.

Example test_add_instruction :
  Cpu.get_r 1 (regs_of (steps 1 emu_test_add)) = 0x150 ∧
  Cpu.get_r 2 (regs_of (steps 1 emu_test_add)) = 0x50.
Proof. vm_compute. done. Qed.

Example test_branch_instruction :
  Cpu.pc (regs_of (steps 1 emu_test_branch)) = 0xFFE00005.
Proof. vm_compute. done. Qed.

Example test_push_pop_instruction :
  let pushed := steps 1 emu_test_push in
  Cpu.sp (regs_of pushed) = 0x0003FFFC - 4 ∧
  fst (Memory.read32 (Cpu.sp (regs_of pushed))
         (Cpu.memory (Emulator.cpu pushed))) = 0xDEADBEEF ∧
  Cpu.get_r 2 (regs_of (steps 1 (emu_test_pop pushed))) = 0xDEADBEEF ∧
  Cpu.sp (regs_of (steps 1 (emu_test_pop pushed))) = 0x0003FFFC.
Proof. vm_compute. done. Qed.

Example test_breakpoint :
  Cpu.pc (regs_of (steps 2 emu_test_breakpoint)) = 0xFFE00001 ∧
  fst (step (steps 1 emu_test_breakpoint)) = false.
Proof. vm_compute. done. Qed.

(** *** The claims on concrete machines *)

Ltac plain_at i blk :=
  split; [vm_compute; reflexivity
         |exists i, blk; split; vm_compute; reflexivity].

Ltac plain_bytes i blk :=
  let k := fresh "k" in let Hk := fresh "Hk" in
  intros k Hk;
  assert (k = 0 ∨ k = 1 ∨ k = 2 ∨ k = 3) as [->|[->|[->| ->]]] by lia;
  first [lia | plain_at i blk].

(** C6, as amended, on the round trips of [test_memory_operations]. *)
Lemma write_read_roundtrip_witness :
  fst (Memory.read8 0x00001000 (Memory.write8 0x00001000 0x55 bus0)) = 0x55 ∧
  fst (Memory.read16 0x00001002 (Memory.write16 0x00001002 0x1234 bus0))
    = 0x1234 ∧
  fst (Memory.read32 0x00001004 (Memory.write32 0x00001004 0xDEADBEEF bus0))
    = 0xDEADBEEF.
Proof.
  split_and!.
  - apply (proj1 (Memory_facts.write_read_roundtrip bus0 0x00001000 0x55));
      [plain_bytes 0%nat ram_block | lia].
  - apply (proj1 (proj2
             (Memory_facts.write_read_roundtrip bus0 0x00001002 0x1234)));
      [plain_bytes 0%nat ram_block | lia].
  - apply (proj2 (proj2
             (Memory_facts.write_read_roundtrip bus0 0x00001004 0xDEADBEEF)));
      [plain_bytes 0%nat ram_block | lia].
Defined.

(** C6 as stated is false here: 0x00087000 lies in the writable block
    "Peripheral", but it is bound to the interrupt request register IR0,
    whose write callback ignores a non-zero value and whose read callback
    reports the pending flag. *)
Lemma roundtrip_fails_on_bound_address :
  Memory._find_block 0x00087000 (Memory.blocks (Memory.mem bus0))
    = Some (1%nat, peripheral_block) ∧
  Memory.readonly peripheral_block = false ∧
  fst (Memory.read8 0x00087000 (Memory.write8 0x00087000 5 bus0)) ≠ 5.
Proof. split_and!; [vm_compute; reflexivity..|vm_compute; discriminate]. Qed.

(** C10 on a memory whose flash holds a program: the flash block
    survives [reset] with its bytes. *)
Lemma reset_clears_only_ram_witness :
  (Memory.region_type flash_loaded ≠ Memory.RAM →
     Memory.blocks (Memory.reset mem_loaded) !! 2%nat = Some flash_loaded) ∧
  (Memory.region_type flash_loaded = Memory.RAM →
     Memory.blocks (Memory.reset mem_loaded) !! 2%nat =
       Some (Memory.set_data (Memory.bytearray (Memory.size flash_loaded))
               flash_loaded)) ∧
  length (Memory.blocks (Memory.reset mem_loaded)) =
    length (Memory.blocks mem_loaded) ∧
  Memory.peripheral_handlers (Memory.reset mem_loaded) =
    Memory.peripheral_handlers mem_loaded.
Proof.
  apply (Memory_facts.reset_clears_only_ram mem_loaded 2%nat flash_loaded).
  vm_compute. reflexivity.
Defined.

(** On the same memory the RAM block, which held a byte, is zeroed. *)
Example reset_zeroes_ram :
  Memory.blocks mem_loaded !! 0%nat = Some ram_loaded ∧
  Memory.blocks (Memory.reset mem_loaded) !! 0%nat = Some ram_block.
Proof. vm_compute. done. Qed.

(** C1 does not hold of the code.  Vector 28 is enabled and pending with
    priority 1 and the CPU runs at IPL 5 with PSW.I set: no source has a
    priority above the IPL, and [step] still performs interrupt entry,
    because it compares the vector number 28 with the IPL. *)
Theorem gate_accepts_below_ipl :
  Cpu.get_flag Cpu.PSW_I (regs_of emu_irq_ipl5) = true ∧
  Cpu.ipl (regs_of emu_irq_ipl5) = 5 ∧
  source_of 28 emu_irq_ipl5 = Some (1, true, true) ∧
  Interrupt.get_pending_interrupt (Emulator.interrupt (periph_of emu_irq_ipl5))
    = Some 28 ∧
  let e := after_cpu_step emu_irq_ipl5 in
  Interrupt.nest_stack (Emulator.interrupt (periph_of e)) = [28] ∧
  source_of 28 e = Some (1, true, false) ∧
  Cpu.sp (regs_of e) = 0x0003FFFC - 8 ∧
  Cpu.pc (regs_of e) = 0xFFE00100 + 1.
Proof. vm_compute. done. Qed.

(** C2 does not hold of the code.  Interrupt entry for vector 28, whose
    source has priority 1: PSW and PC are pushed, SP drops by 8, PSW.I
    is cleared, PC is the handler read from 0xFFFFFF80 + 28*4 and the
    pending flag is cleared, but the IPL field receives 28 & 0x0F = 12,
    the vector number, not the priority 1. *)
Theorem entry_loads_vector_into_ipl :
  source_of 28 emu_irq = Some (1, true, true) ∧
  let e := after_entry 28 emu_irq in
  Cpu.ipl (regs_of e) = 12 ∧
  Cpu.sp (regs_of e) = Cpu.sp (regs_of emu_irq) - 8 ∧
  fst (Memory.read32 (Cpu.sp (regs_of e)) (Cpu.memory (cpu_of e)))
    = Cpu.pc (regs_of emu_irq) ∧
  fst (Memory.read32 (Cpu.sp (regs_of e) + 4) (Cpu.memory (cpu_of e)))
    = Cpu.psw (regs_of emu_irq) ∧
  Cpu.get_flag Cpu.PSW_I (regs_of e) = false ∧
  Cpu.pc (regs_of e) = 0xFFE00100 ∧
  source_of 28 e = Some (1, true, false).
Proof. vm_compute. done. Qed.

Lemma no_breakpoint (c : Cpu.RXCpu Periph) (x : Z) :
  Cpu.breakpoints c = ∅ → x ∉ Cpu.breakpoints c.
Proof. intros ->. apply not_elem_of_empty. Defined.

(** C3 as stated is false here: the engine is WAITING and no interrupt
    is pending, yet [step] fetches the NOP at PC, so PC and the cycle
    counter both advance, and no interrupt was entered. *)
Lemma waiting_step_fetches :
  Cpu.state (cpu_of emu_wait) = Cpu.WAITING ∧
  Interrupt.get_pending_interrupt (Emulator.interrupt (periph_of emu_wait))
    = None ∧
  Cpu.pc (regs_of emu_wait) = 0xFFE00002 ∧
  Cpu.cycle_count (cpu_of emu_wait) = 2 ∧
  let e := after_cpu_step emu_wait in
  Cpu.pc (regs_of e) = 0xFFE00003 ∧
  Cpu.cycle_count (cpu_of e) = 3 ∧
  Interrupt.nest_stack (Emulator.interrupt (periph_of e)) = [] ∧
  Cpu.state (cpu_of e) = Cpu.WAITING.
Proof. vm_compute. done. Qed.

(** C3, as amended, on the machine that has just executed WAIT. *)
Lemma step_in_waiting_witness :
  Cpu.cycle_count (cpu_of emu_wait) + 1
    ≤ Cpu.cycle_count (snd (cpu_step (cpu_of emu_wait))) ∧
  (Cpu.state (snd (cpu_step (cpu_of emu_wait))) = Cpu.WAITING ∨
   Cpu.state (snd (cpu_step (cpu_of emu_wait))) = Cpu.EXCEPTION) ∧
  (fst (cpu_step (cpu_of emu_wait)) = Cpu.Done false ∨
   ∃ e, fst (cpu_step (cpu_of emu_wait)) = Cpu.Raise e).
Proof.
  apply (Cpu_facts.step_in_waiting Emulator.interrupt Emulator.set_interrupt
           (cpu_of emu_wait)).
  - vm_compute. reflexivity.
  - apply no_breakpoint. vm_compute. reflexivity.
Defined.

(** C4 does not hold of the code.  ADD R2,R1 with R1 = 0xFFFFFFFF and
    R2 = 1: the sum is 2^32, R1 becomes 0 and Z is set, but C stays
    clear. *)
Theorem add_overflow_carry_clear :
  Cpu.get_r 1 (regs_of emu_add) = 0xFFFFFFFF ∧
  Cpu.get_r 2 (regs_of emu_add) = 1 ∧
  let e := after_cpu_step emu_add in
  Cpu.get_r 1 (regs_of e) = 0 ∧
  Cpu.get_flag Cpu.PSW_Z (regs_of e) = true ∧
  Cpu.get_flag Cpu.PSW_C (regs_of e) = false.
Proof. vm_compute. done. Qed.

(** C5 does not hold of the code.  The table entry for 0xEF, first set
    to the register move, is overwritten by the loop over
    [range(0xEC, 0xF0)]: the byte pair EF 12 loads R2 from the memory
    word that R1 points to. *)
Theorem opcode_EF_is_load :
  Cpu._build_instruction_table !! 0xEF = Some Cpu.Op_mov_l_load ∧
  Cpu.get_r 1 (regs_of emu_ef) = 0x00001000 ∧
  fst (Memory.read32 0x00001000 (Cpu.memory (cpu_of emu_ef))) = 0xDEADBEEF ∧
  let e := after_cpu_step emu_ef in
  Cpu.get_r 2 (regs_of e) = 0xDEADBEEF ∧
  Cpu.get_r 1 (regs_of e) = 0x00001000.
Proof. vm_compute. done. Qed.

(** C7 as stated is false here: CMT0 runs with CMCOR = 0 and CMCNT = 0;
    a tick of 8 cycles is one increment, after which CMCNT is 1 and no
    compare match has been flagged. *)
Lemma cmcor_zero_increment_no_match :
  Timer.running (channel0 timer_cmcor0) = true ∧
  Timer.cmcor (channel0 timer_cmcor0) = 0 ∧
  Timer.divider_value (channel0 timer_cmcor0) = 8 ∧
  let t := fst (Timer.tick 8 (timer_cmcor0, Interrupt.init)) in
  Timer.cmcnt (channel0 t) = 1 ∧
  Timer.compare_match_flag (channel0 t) = false.
Proof. vm_compute. done. Qed.

(** C7, as amended, on a channel about to wrap. *)
Lemma increment_cmcor_zero_witness :
  (Timer.cmcnt channel_wrapping = 0xFFFF →
     Timer.cmcnt (Timer.increment channel_wrapping Interrupt.init).1 = 0 ∧
     Timer.compare_match_flag
       (Timer.increment channel_wrapping Interrupt.init).1 = true ∧
     (Timer.increment channel_wrapping Interrupt.init).2 =
       if Timer.interrupt_enabled channel_wrapping
       then Interrupt.request (Timer.interrupt_vector channel_wrapping)
              Interrupt.init
       else Interrupt.init) ∧
  (Timer.cmcnt channel_wrapping ≠ 0xFFFF →
     Timer.cmcnt (Timer.increment channel_wrapping Interrupt.init).1 =
       Timer.cmcnt channel_wrapping + 1 ∧
     Timer.compare_match_flag
       (Timer.increment channel_wrapping Interrupt.init).1 =
       Timer.compare_match_flag channel_wrapping ∧
     (Timer.increment channel_wrapping Interrupt.init).2 = Interrupt.init).
Proof.
  apply (Timer_facts.increment_cmcor_zero channel_wrapping Interrupt.init).
  - vm_compute. reflexivity.
  - vm_compute. split; discriminate.
Defined.

(** C8 does not hold of the code.  Four NOPs, one cycle each, with CMT0
    running at divider 8.  [step] hands the running total
    [cpu.cycle_count] to the clock, so the ticks are 1, 2, 3 and 4:
    after the second step the clock has counted 3 cycles, after the
    fourth 10, and CMCNT has already moved although only four cycles
    were consumed. *)
Theorem tick_gets_running_total :
  Cpu.cycle_count (cpu_of (steps 1 emu_nops)) = 1 ∧
  Emulator.tick_count (periph_of (steps 1 emu_nops)) = 1 ∧
  Cpu.cycle_count (cpu_of (steps 2 emu_nops)) = 2 ∧
  Emulator.tick_count (periph_of (steps 2 emu_nops)) = 3 ∧
  Cpu.cycle_count (cpu_of (steps 4 emu_nops)) = 4 ∧
  Emulator.tick_count (periph_of (steps 4 emu_nops)) = 10 ∧
  Timer.cmcnt (channel0 (Emulator.timer (periph_of (steps 4 emu_nops)))) = 1 ∧
  Timer.prescale_counters (Emulator.timer (periph_of (steps 4 emu_nops))) !! 0
    = Some 2.
Proof. vm_compute. done. Qed.

(** C9 as stated is false here: after [reset] SP is 0x00020000, not
    0x0003FFFC. *)
Lemma reset_sp_is_0x20000 :
  Cpu.sp (regs_of (reset emu_before_reset)) = 0x00020000 ∧
  Cpu.sp (regs_of (reset emu_before_reset)) ≠ 0x0003FFFC ∧
  Cpu.pc (regs_of (reset emu_before_reset)) = 0xFFE00000.
Proof. vm_compute. split_and!; [done|discriminate|done]. Qed.

End Runs.
